(** * DataTable_: a shallow embedding of OpenSim/Common/DataTable.h

    The table engine [DataTable_<ETX, ETY>] owns an independent column
    ([std::vector<ETX> _indData]) and a dense matrix of dependent elements
    ([SimTK::Matrix_<ETY> _depData]); three metadata stores are inherited
    from [AbstractDataTable].  Member functions that can throw are embedded
    as functions into [Result]; member functions that also mutate the table
    return the table they leave behind next to their result, so that the
    state left by a call that throws half-way is visible. *)

From Stdlib Require Import ZArith Floats DecimalString.
From stdpp Require Import gmap strings list fin_maps vector.

Open Scope string_scope.
Open Scope list_scope.
Open Scope Z_scope.

(** ** Machine integers

    [size_t] is 64 bits wide, [unsigned] and [int] are 32 bits wide.  Sizes
    and indices are integers in [Z]; every conversion the source writes is
    applied with its wrap-around. *)

Definition cast_size_t (z : Z) : Z := z mod 2 ^ 64.
Definition cast_unsigned (z : Z) : Z := z mod 2 ^ 32.
Definition cast_int (z : Z) : Z := (z + 2 ^ 31) mod 2 ^ 32 - 2 ^ 31.

(** [std::vector::size()]: a [size_t]. *)
Definition size_of {A} (l : list A) : Z := Z.of_nat (length l).

(** ** Errors *)

(** Modelled from the spec: the exception classes are declared in
    AbstractDataTable.h and Exception.h, which are not among the sources.
    The kinds are those of the error taxonomy; a kind carries the numbers the
    taxonomy says it carries (expected and actual counts, the index given and
    the valid bounds), in the order the throwing code passes them.  Message
    texts and key names are not represented.  [TypeMismatch] is the error of
    reading a metadata value at the wrong type. *)
Inductive Exception : Type :=
| InvalidArgument
| IncorrectNumColumns (expected actual : Z)
| InvalidRow
| RowIndexOutOfRange (index min max : Z)
| ColumnIndexOutOfRange (index min max : Z)
| KeyNotFound
| MissingMetaData
| MetaDataLengthZero
| IncorrectMetaDataLength (expected actual : Z)
| TypeMismatch.

(** What lies outside the table's own error kinds: a null pointer that is
    dereferenced, [std::vector::at] out of range, and a request the matrix
    library rejects (a row or column that does not exist, an assignment to a
    row view from a row of another width). *)
Inductive Fault : Type :=
| NullPointerDereference
| StdOutOfRange
| MatrixIndexOutOfRange
| MatrixDimensionMismatch.

Inductive Result (A : Type) : Type :=
| Ok (a : A)
| Throw (e : Exception)
| Failure (f : Fault).
Arguments Ok {A} a.
Arguments Throw {A} e.
Arguments Failure {A} f.

Definition bindR {A B} (r : Result A) (k : A -> Result B) : Result B :=
  match r with
  | Ok a => k a
  | Throw e => Throw e
  | Failure f => Failure f
  end.

Declare Scope result_scope.
Delimit Scope result_scope with result.
Notation "'let*' x := c 'in' k" := (bindR c (fun x => k))
  (at level 10, x pattern, c at level 100, k at level 200) : result_scope.
Open Scope result_scope.

(** A loop whose body can throw: the first error ends it. *)
Fixpoint foldR {A S} (body : S -> A -> Result S) (l : list A) (s : S)
  : Result S :=
  match l with
  | [] => Ok s
  | a :: l' => let* s' := body s a in foldR body l' s'
  end.

(** ** Metadata stores *)

Definition double : Type := float.

(** Modelled from the spec: [ValueArray] and [AbstractValueArray] are
    declared outside the sources.  A value array is homogeneous, and its
    element type is one of the kinds of metadata value in use: string,
    unsigned integer, signed integer, floating point. *)
Inductive ValueArray : Type :=
| StringArray (values : list string)
| UnsignedArray (values : list Z)
| IntArray (values : list Z)
| DoubleArray (values : list double).

Definition ValueArray_size (a : ValueArray) : Z :=
  match a with
  | StringArray vs => size_of vs
  | UnsignedArray vs => size_of vs
  | IntArray vs => size_of vs
  | DoubleArray vs => size_of vs
  end.

(** Modelled from the spec: a single metadata value (table and independent
    column metadata). *)
Inductive Value : Type :=
| StringValue (v : string)
| UnsignedValue (v : Z)
| IntValue (v : Z)
| DoubleValue (v : double).

(** Modelled from the spec: the store of per-column metadata,
    [ValueArrayDictionary], a mapping from key to value array. *)
Abbreviation DependentsMetaData := (gmap string ValueArray).
Abbreviation IndependentMetaData := (gmap string Value).
Abbreviation TableMetaData := (gmap string Value).

(** Modelled from the spec: [getValueArrayForKey] "fails with KeyNotFound if
    absent". *)
Definition getValueArrayForKey (md : DependentsMetaData) (key : string)
  : Result ValueArray :=
  match md !! key with
  | Some a => Ok a
  | None => Throw KeyNotFound
  end.

(** Modelled from the spec: [removeValueArrayForKey] is a "no-op if
    absent". *)
Definition removeValueArrayForKey (md : DependentsMetaData) (key : string)
  : DependentsMetaData := delete key md.

(** Modelled from the spec: [setValueArrayForKey] registers one value per
    column under the key. *)
Definition setValueArrayForKey (md : DependentsMetaData) (key : string)
    (a : ValueArray) : DependentsMetaData := <[key := a]> md.

(** Modelled from the spec: [getKeys] "produces the set of registered keys",
    in an order that is stable for one store. *)
Definition getKeys (md : DependentsMetaData) : list string :=
  (map_to_list md).*1.

(** Modelled from the spec: [getValueForKey] "fails with KeyNotFound on a
    missing key at read time". *)
Definition getValueForKey (md : IndependentMetaData) (key : string)
  : Result Value :=
  match md !! key with
  | Some v => Ok v
  | None => Throw KeyNotFound
  end.

(** ** The matrix of dependent elements

    [SimTK::Matrix_<ETY>] belongs to the matrix library.  It is embedded as
    the list of its rows together with its column count, which a matrix
    keeps even when it has no row. *)

Record Matrix_ (ETY : Type) : Type := mkMatrix {
  elts : list (list ETY);
  ncol : nat
}.
Arguments mkMatrix {ETY} elts ncol.
Arguments elts {ETY} m.
Arguments ncol {ETY} m.

Definition nrow {ETY} (m : Matrix_ ETY) : nat := length (elts m).

(** Every row has [ncol] elements. *)
Definition rectangular {ETY} (m : Matrix_ ETY) : Prop :=
  Forall (fun r => length r = ncol m) (elts m).

(** The elements a table can hold: [uninit] stands for the content of a
    cell that [resize] and [resizeKeep] leave unwritten. *)
Class Element (ETY : Type) : Type := {
  uninit : ETY;
  numComponentsPerElement_impl : nat
}.

Section Matrix.
Context {ETY : Type} `{!Element ETY}.

(** The default-constructed matrix: 0 x 0. *)
Definition Matrix_empty : Matrix_ ETY := mkMatrix [] 0.

(** [m.resize(r, c)]: previous content is lost. *)
Definition Matrix_resize (m : Matrix_ ETY) (r c : nat) : Matrix_ ETY :=
  mkMatrix (replicate r (replicate c uninit)) c.

(** [m.resizeKeep(r, c)]: the content of the cells that remain is kept. *)
Definition Matrix_resizeKeep (m : Matrix_ ETY) (r c : nat) : Matrix_ ETY :=
  mkMatrix (resize r (replicate c uninit) (resize c uninit <$> elts m)) c.

(** [m.row(i)], a view of row [i]. *)
Definition Matrix_row (m : Matrix_ ETY) (i : Z) : Result (list ETY) :=
  if bool_decide (0 <= i < Z.of_nat (nrow m)) then
    match elts m !! Z.to_nat i with
    | Some r => Ok r
    | None => Failure MatrixIndexOutOfRange
    end
  else Failure MatrixIndexOutOfRange.

(** [m.col(j)], a view of column [j]. *)
Definition Matrix_col (m : Matrix_ ETY) (j : Z) : Result (list ETY) :=
  if bool_decide (0 <= j < Z.of_nat (ncol m)) then
    Ok ((fun r => nth (Z.to_nat j) r uninit) <$> elts m)
  else Failure MatrixIndexOutOfRange.

(** [m.updRow(i) = r]: a row view cannot change its width. *)
Definition Matrix_assignRow (m : Matrix_ ETY) (i : Z) (r : list ETY)
  : Result (Matrix_ ETY) :=
  if bool_decide (0 <= i < Z.of_nat (nrow m)) then
    if bool_decide (length r = ncol m) then
      Ok (mkMatrix (<[Z.to_nat i := r]> (elts m)) (ncol m))
    else Failure MatrixDimensionMismatch
  else Failure MatrixIndexOutOfRange.
End Matrix.

(** ** Operations that mutate the table

    A member function that assigns to the table's fields is a function from
    the table before the call to its result and the table after the call;
    when it throws, the second component is the table as the throw left
    it. *)

Definition Action (S A : Type) : Type := S -> Result A * S.

Definition retA {S A} (a : A) : Action S A := fun s => (Ok a, s).

Definition bindA {S A B} (c : Action S A) (k : A -> Action S B)
  : Action S B :=
  fun s =>
    match c s with
    | (Ok a, s') => k a s'
    | (Throw e, s') => (Throw e, s')
    | (Failure f, s') => (Failure f, s')
    end.

(** A [const] member function or an expression that reads the table. *)
Definition readA {S A} (f : S -> Result A) : Action S A := fun s => (f s, s).

(** An assignment to fields of the table. *)
Definition writeA {S} (f : S -> S) : Action S unit := fun s => (Ok tt, f s).

(** [try { c } catch(KeyNotFound&) { }]. *)
Definition catch_KeyNotFound {S} (c : Action S unit) : Action S unit :=
  fun s =>
    match c s with
    | (Throw KeyNotFound, s') => (Ok tt, s')
    | other => other
    end.

Notation "'let#' x := c 'in' k" := (bindA c (fun x => k))
  (at level 10, x pattern, c at level 100, k at level 200) : result_scope.
Notation "c ';#' k" := (bindA c (fun _ => k))
  (at level 100, k at level 200, right associativity) : result_scope.

(** [OPENSIM_THROW_IF(cond, e)]. *)
Definition throw_if (cond : bool) (e : Exception) : Result unit :=
  if cond then Throw e else Ok tt.

(** ** The table *)

Record DataTable_ (ETX ETY : Type) : Type := mkDataTable {
  _tableMetaData : TableMetaData;
  _independentMetaData : IndependentMetaData;
  _dependentsMetaData : DependentsMetaData;
  _indData : list ETX;
  _depData : Matrix_ ETY
}.
Arguments mkDataTable {ETX ETY}.
Arguments _tableMetaData {ETX ETY} _.
Arguments _independentMetaData {ETX ETY} _.
Arguments _dependentsMetaData {ETX ETY} _.
Arguments _indData {ETX ETY} _.
Arguments _depData {ETX ETY} _.

Definition set_indData {ETX ETY} (f : list ETX -> list ETX)
    (t : DataTable_ ETX ETY) : DataTable_ ETX ETY :=
  mkDataTable (_tableMetaData t) (_independentMetaData t)
    (_dependentsMetaData t) (f (_indData t)) (_depData t).

Definition set_depData {ETX ETY} (f : Matrix_ ETY -> Matrix_ ETY)
    (t : DataTable_ ETX ETY) : DataTable_ ETX ETY :=
  mkDataTable (_tableMetaData t) (_independentMetaData t)
    (_dependentsMetaData t) (_indData t) (f (_depData t)).

Definition set_dependentsMetaData {ETX ETY}
    (f : DependentsMetaData -> DependentsMetaData)
    (t : DataTable_ ETX ETY) : DataTable_ ETX ETY :=
  mkDataTable (_tableMetaData t) (_independentMetaData t)
    (f (_dependentsMetaData t)) (_indData t) (_depData t).

(** [std::find(first, last, value)] as the distance of the iterator it
    returns from [first]: the position of the first element [x] with
    [x == value], and the length of the range when there is none. *)
Fixpoint std_find {A} (eqb : A -> A -> bool) (l : list A) (value : A) : nat :=
  match l with
  | [] => 0%nat
  | x :: l' => if eqb x value then 0%nat else S (std_find eqb l' value)
  end.

Section DataTable.
Context {ETX ETY : Type} `{!Element ETY}.

(** [operator==] on [ETX]. *)
Variable ETX_eqb : ETX -> ETX -> bool.

Local Abbreviation DataTable := (DataTable_ ETX ETY).
Local Abbreviation RowVector := (list ETY).

(** The default-constructed table. *)
Definition DataTable_default : DataTable :=
  mkDataTable ∅ ∅ ∅ [] Matrix_empty.

(** [numComponentsPerElement()]. *)
Definition numComponentsPerElement (t : DataTable) : nat :=
  numComponentsPerElement_impl (ETY := ETY).

Definition implementGetNumRows (t : DataTable) : Z :=
  Z.of_nat (nrow (_depData t)).

Definition implementGetNumColumns (t : DataTable) : Z :=
  Z.of_nat (ncol (_depData t)).

(** Modelled from the spec: [getNumRows] and [getNumColumns] of
    AbstractDataTable give the row and column count of the table, which
    the overrides above supply. *)
Definition getNumRows (t : DataTable) : Z := implementGetNumRows t.
Definition getNumColumns (t : DataTable) : Z := implementGetNumColumns t.

Definition isRowIndexOutOfRange (t : DataTable) (index : Z) : bool :=
  bool_decide (index >= size_of (_indData t)).

Definition isColumnIndexOutOfRange (t : DataTable) (index : Z) : bool :=
  bool_decide (index >= cast_size_t (Z.of_nat (ncol (_depData t)))).

(** The virtual [validateRow(rowIndex, ind, row)]: a derived class can
    override it to reject a row; it is [const]. *)
Variable validateRow : DataTable -> Z -> ETX -> RowVector -> Result unit.

(** [DataTable_::validateRow]: no operation. *)
Definition validateRow_base (t : DataTable) (rowIndex : Z) (ind : ETX)
    (row : RowVector) : Result unit := Ok tt.

(** [_depData.updRow(_depData.nrow() - 1) = depRow]. *)
Definition assignLastRow (depRow : RowVector) : Action DataTable unit :=
  fun t =>
    match Matrix_assignRow (_depData t)
            (Z.of_nat (nrow (_depData t)) - 1) depRow with
    | Ok m => (Ok tt, set_depData (fun _ => m) t)
    | Throw e => (Throw e, t)
    | Failure f => (Failure f, t)
    end.

(** [appendRow(const ETX& indRow, const RowVector& depRow)]. *)
Definition appendRow (indRow : ETX) (depRow : RowVector)
  : Action DataTable unit :=
  readA (fun t => validateRow t (size_of (_indData t)) indRow depRow) ;#
  writeA (set_indData (fun ind => ind ++ [indRow])) ;#
  let# empty := readA (fun t =>
      Ok (bool_decide (nrow (_depData t) = 0%nat)
          || bool_decide (ncol (_depData t) = 0%nat))) in
  if (empty : bool) then
    catch_KeyNotFound (readA (fun t =>
      let* labels := getValueArrayForKey (_dependentsMetaData t) "labels" in
      throw_if
        (bool_decide (cast_unsigned (size_of depRow)
                      <> ValueArray_size labels))
        (IncorrectNumColumns (ValueArray_size labels)
           (cast_size_t (size_of depRow))))) ;#
    writeA (set_depData (fun m => Matrix_resize m 1 (length depRow))) ;#
    assignLastRow depRow
  else
    writeA (set_depData (fun m =>
      Matrix_resizeKeep m (nrow m + 1) (ncol m))) ;#
    assignLastRow depRow.

(** [getRowAtIndex(size_t index)]. *)
Definition getRowAtIndex (t : DataTable) (index : Z) : Result RowVector :=
  let* _ := throw_if (isRowIndexOutOfRange t index)
    (RowIndexOutOfRange index 0
       (cast_unsigned (cast_size_t (size_of (_indData t) - 1)))) in
  Matrix_row (_depData t) (cast_int index).

(** [getRow(const ETX& ind)]. *)
Definition getRow (t : DataTable) (ind : ETX) : Result RowVector :=
  let iter := std_find ETX_eqb (_indData t) ind in
  let* _ := throw_if (bool_decide (iter = length (_indData t)))
    KeyNotFound in
  Matrix_row (_depData t) (cast_int (Z.of_nat iter)).

(** [getDependentColumnAtIndex(size_t index)]. *)
Definition getDependentColumnAtIndex (t : DataTable) (index : Z)
  : Result (list ETY) :=
  let* _ := throw_if (isColumnIndexOutOfRange t index)
    (ColumnIndexOutOfRange index 0
       (cast_size_t (Z.of_nat (ncol (_depData t)) - 1))) in
  Matrix_col (_depData t) (cast_int index).

(** [setIndependentValueAtIndex(size_t rowIndex, const ETX& value)]. *)
Definition setIndependentValueAtIndex (rowIndex : Z) (value : ETX)
  : Action DataTable unit :=
  readA (fun t => throw_if (isRowIndexOutOfRange t rowIndex)
    (RowIndexOutOfRange rowIndex 0
       (cast_unsigned (cast_size_t (size_of (_indData t) - 1))))) ;#
  readA (fun t =>
    let* row := Matrix_row (_depData t) (cast_int rowIndex) in
    validateRow t rowIndex value row) ;#
  writeA (set_indData (fun ind => <[Z.to_nat rowIndex := value]> ind)).

(** [validateIndependentMetaData()]. *)
Definition validateIndependentMetaData (t : DataTable) : Result unit :=
  match getValueForKey (_independentMetaData t) "labels" with
  | Ok _ => Ok tt
  | Throw KeyNotFound => Throw MissingMetaData
  | Throw e => Throw e
  | Failure f => Failure f
  end.

(** [validateDependentsMetaData()]. *)
Definition validateDependentsMetaData (t : DataTable) : Result unit :=
  let* numCols :=
    match getValueArrayForKey (_dependentsMetaData t) "labels" with
    | Ok labels => Ok (cast_unsigned (ValueArray_size labels))
    | Throw KeyNotFound => Throw MissingMetaData
    | Throw e => Throw e
    | Failure f => Failure f
    end in
  let* _ := throw_if (bool_decide (numCols = 0)) MetaDataLengthZero in
  let* _ := throw_if
    (bool_decide (ncol (_depData t) <> 0%nat)
     && bool_decide (numCols
                     <> cast_unsigned (Z.of_nat (ncol (_depData t)))))
    (IncorrectMetaDataLength
       (cast_size_t (Z.of_nat (ncol (_depData t)))) numCols) in
  foldR (fun _ key =>
      let* a := getValueArrayForKey (_dependentsMetaData t) key in
      throw_if (bool_decide (numCols <> ValueArray_size a))
        (IncorrectMetaDataLength numCols (ValueArray_size a)))
    (getKeys (_dependentsMetaData t)) tt.
End DataTable.

Arguments validateRow_base {ETX ETY} t rowIndex ind row.
Arguments DataTable_default {ETX ETY}.

(** ** Element shapes

    [numComponentsPerElement_impl] has an overload for [double], one for
    [SimTK::Vec<M>] and one for [SimTK::Vec<M, SimTK::Vec<N>>]. *)

#[export] Instance Element_double : Element double :=
  {| uninit := PrimFloat.nan; numComponentsPerElement_impl := 1 |}.

#[export] Instance Element_Vec (M : nat) : Element (vec double M) :=
  {| uninit := vreplicate M PrimFloat.nan;
     numComponentsPerElement_impl := M |}.

#[export] Instance Element_VecVec (M N : nat) : Element (vec (vec double N) M) :=
  {| uninit := vreplicate M (vreplicate N PrimFloat.nan);
     numComponentsPerElement_impl := M * N |}.

(** The elements [splitElementAndPushBack] has an overload for. *)
Class Composite (ETY : Type) `{!Element ETY} : Type :=
  splitElementAndPushBack : list double -> ETY -> list double.

(** An element adds [numComponentsPerElement()] components to the row. *)
Class CompositeLength (ETY : Type) `{!Element ETY, !Composite ETY} : Prop :=
  splitElementAndPushBack_length (row : list double) (elem : ETY) :
    length (splitElementAndPushBack row elem)
    = (length row + numComponentsPerElement_impl (ETY := ETY))%nat.

(** [for(unsigned i = 0; i < N; ++i) row.push_back(elem[i]);] *)
Definition split_Vec {N : nat} (row : list double) (elem : vec double N)
  : list double :=
  fold_left (fun row i => row ++ [nth i (vec_to_list elem) PrimFloat.nan])
    (seq 0 N) row.

(** [for(unsigned i = 0; i < M; ++i) for(unsigned j = 0; j < N; ++j)
    row.push_back(elem[i][j]);] *)
Definition split_VecVec {M N : nat} (row : list double)
    (elem : vec (vec double N) M) : list double :=
  fold_left (fun row i =>
      fold_left (fun row j =>
          row ++ [nth j (vec_to_list
                           (nth i (vec_to_list elem)
                              (vreplicate N PrimFloat.nan)))
                    PrimFloat.nan])
        (seq 0 N) row)
    (seq 0 M) row.

#[export] Instance Composite_Vec (N : nat) : Composite (vec double N) :=
  split_Vec.

#[export] Instance Composite_VecVec (M N : nat)
  : Composite (vec (vec double N) M) := split_VecVec.

(** ** Column labels *)

Section ColumnLabels.
Context {ETX ETY : Type} `{!Element ETY}.
Local Abbreviation DataTable := (DataTable_ ETX ETY).

(** Modelled from the spec: [hasColumnLabels] of AbstractDataTable; the
    column labels are the value array registered under the reserved key
    "labels" of the dependents metadata. *)
Definition hasColumnLabels (t : DataTable) : bool :=
  bool_decide (is_Some (_dependentsMetaData t !! "labels")).

(** Modelled from the spec: [getColumnLabels] of AbstractDataTable reads
    the "labels" array as strings: [KeyNotFound] when absent, a
    type-mismatch error when the array does not hold strings. *)
Definition getColumnLabels (t : DataTable) : Result (list string) :=
  let* a := getValueArrayForKey (_dependentsMetaData t) "labels" in
  match a with
  | StringArray labels => Ok labels
  | _ => Throw TypeMismatch
  end.

(** Modelled from the spec: [setColumnLabels] of AbstractDataTable
    replaces the "labels" array and validates the dependents metadata
    ("This calls validateDependentsMetadata", DataTable.h line 214). *)
Definition setColumnLabels (labels : list string) : Action DataTable unit :=
  writeA (set_dependentsMetaData (fun md =>
    setValueArrayForKey (removeValueArrayForKey md "labels") "labels"
      (StringArray labels))) ;#
  readA validateDependentsMetaData.
End ColumnLabels.

(** ** The flattening constructor *)

(** [std::to_string(unsigned)]. *)
Definition to_string (i : nat) : string :=
  NilEmpty.string_of_uint (Nat.to_uint i).

(** What [try { valueArray = dynamic_cast<ValueArray<std::string>*>(p); }
    catch (const std::bad_cast&) { ... }] can observe: the pointer the cast
    evaluates to, null when the array does not hold strings, or a
    [std::bad_cast] exception. *)
Inductive CastOutcome : Type :=
| cast_pointer (valueArray : option (list string))
| bad_cast.

(** [dynamic_cast] to a pointer type: a failed cast is the null pointer. *)
Definition dynamic_cast_StringArray (absValueArray : ValueArray)
  : CastOutcome :=
  match absValueArray with
  | StringArray values => cast_pointer (Some values)
  | _ => cast_pointer None
  end.

(** A loop over a container whose body can throw. *)
Fixpoint forA {S A} (l : list A) (body : A -> Action S unit)
  : Action S unit :=
  match l with
  | [] => retA tt
  | a :: l' => body a ;# forA l' body
  end.

(** A constructor: the object exists only if the body returns. *)
Definition construct {S} (init : S) (body : Action S unit) : Result S :=
  match body init with
  | (Ok _, this) => Ok this
  | (Throw e, _) => Throw e
  | (Failure f, _) => Failure f
  end.

Section Flatten.
Context {ThatETY : Type} `{!Element ThatETY, !Composite ThatETY}.

Local Abbreviation That := (DataTable_ double ThatETY).
Local Abbreviation This := (DataTable_ double double).

(** The body of the loop over the keys of the dependents metadata,
    lines 183-202. *)
Definition replicateMetaData (that : That) (key : string)
  : Action This unit :=
  if bool_decide (key = "labels") then retA tt
  else
    let# absValueArray := readA (fun this =>
      getValueArrayForKey (_dependentsMetaData this) key) in
    match dynamic_cast_StringArray absValueArray with
    | bad_cast =>
        writeA (set_dependentsMetaData (fun md =>
          removeValueArrayForKey md key))
    | cast_pointer None =>
        (* valueArray->upd() *)
        fun this => (Failure NullPointerDereference, this)
    | cast_pointer (Some values) =>
        let newValues :=
          flat_map (fun value =>
            replicate (numComponentsPerElement that) value) values in
        writeA (set_dependentsMetaData (fun md =>
          <[key := StringArray newValues]> md))
    end.

(** The labels of the columns one source column is split into,
    lines 206-212. *)
Definition splitLabel (that : That) (suffixes : list string)
    (label : string) : list string :=
  if bool_decide (suffixes = []) then
    (fun i => (label +:+ "_") +:+ to_string i)
      <$> seq 1 (numComponentsPerElement that)
  else
    (fun suffix => label +:+ suffix) <$> suffixes.

(** The row built from row [thatRow] of the source, lines 220-222. *)
Definition splitRow (that : That) (thatRow : list ThatETY) : list double :=
  fold_left (fun row c => splitElementAndPushBack row (nth c thatRow uninit))
    (seq 0 (Z.to_nat (getNumColumns that))) [].

(** The three [OPENSIM_THROW_IF] on the arguments, lines 165-176. *)
Definition checkArguments (that : That) (suffixes : list string)
  : Result unit :=
  let* _ := throw_if (negb (hasColumnLabels that)) InvalidArgument in
  let* _ := throw_if
    (bool_decide (getNumRows that = 0)
     || bool_decide (getNumColumns that = 0))
    InvalidArgument in
  throw_if
    (negb (bool_decide (suffixes = []))
     && bool_decide (size_of suffixes
                     <> Z.of_nat (numComponentsPerElement that)))
    InvalidArgument.

(** The body of the loop over the rows of the source, lines 218-223. *)
Definition appendSplitRow (that : That) (r : nat) : Action This unit :=
  let# thatInd := readA (fun _ =>
    match _indData that !! r with
    | Some x => Ok x
    | None => Failure StdOutOfRange
    end) in
  let# thatRow := readA (fun _ => getRowAtIndex that (Z.of_nat r)) in
  appendRow validateRow_base thatInd (splitRow that thatRow).

(** What the constructor does once the arguments are accepted,
    lines 183-224. *)
Definition splitColumns (that : That) (suffixes : list string)
  : Action This unit :=
  let# keys := readA (fun this => Ok (getKeys (_dependentsMetaData this))) in
  forA keys (replicateMetaData that) ;#
  let# thatLabels := readA (fun _ => getColumnLabels that) in
  let thisLabels := flat_map (splitLabel that suffixes) thatLabels in
  setColumnLabels thisLabels ;#
  forA (seq 0 (Z.to_nat (getNumRows that))) (appendSplitRow that).

(** [DataTable_(const DataTable_<double, ThatETY>& that,
                const std::vector<std::string>& suffixes)]: the base
    class is copy-constructed from [that], the independent column and the
    matrix are default-constructed.  While the constructor runs,
    [validateRow] is the one of [DataTable_]. *)
Definition flatten_ctor (that : That) (suffixes : list string)
  : Result This :=
  construct
    (mkDataTable (_tableMetaData that) (_independentMetaData that)
       (_dependentsMetaData that) [] Matrix_empty)
    (readA (fun _ => checkArguments that suffixes) ;#
     splitColumns that suffixes).

(** [explicit DataTable_(const DataTable_<double, ThatETY>& that)]. *)
Definition flatten_ctor_default (that : That) : Result This :=
  flatten_ctor that [].

(** [flatten(const std::vector<std::string>& suffixes)]. *)
Definition flatten_with (that : That) (suffixes : list string)
  : Result This := flatten_ctor that suffixes.
End Flatten.

(** [DataTable_<double, double>{that}]: the constructor that overload
    resolution selects for an argument of type [DataTable_<double, ETY>].
    For [ETY = double] it is the copy constructor, for a composite element
    the template constructor (which a [static_assert] closes to
    [DataTable_<double, double>]: "Use the copy constructor instead"). *)
Class ConstructibleFrom (ETY : Type) : Type :=
  DataTable_from : DataTable_ double ETY -> Result (DataTable_ double double).

(** [DataTable_(const DataTable_&) = default]. *)
#[export] Instance ConstructibleFrom_double : ConstructibleFrom double :=
  fun that => Ok that.

#[export] Instance ConstructibleFrom_Vec (N : nat)
  : ConstructibleFrom (vec double N) := flatten_ctor_default.

#[export] Instance ConstructibleFrom_VecVec (M N : nat)
  : ConstructibleFrom (vec (vec double N) M) := flatten_ctor_default.

(** [flatten()]: [return DataTable_<double, double>{*this};] *)
Definition flatten {ETY : Type} `{!ConstructibleFrom ETY}
    (this : DataTable_ double ETY) : Result (DataTable_ double double) :=
  DataTable_from this.


(** ** Tables built through the interface

    The tables the statements below are evaluated on are built the way
    testDataTable.cpp builds its tables: from the default table, by
    [setColumnLabels] and [appendRow]. *)

(** [operator==] on [double]: the comparison of IEEE 754. *)
Definition double_eqb (x y : double) : bool := PrimFloat.eqb x y.

(** The table a call leaves behind. *)
Definition exec {S A} (c : Action S A) (s : S) : S := snd (c s).

Definition Vec3 : Type := vec double 3.

(** A [DataTable_<double, ETY>] calls [DataTable_::validateRow]. *)
Definition append {ETY : Type} `{!Element ETY} (indRow : double)
    (depRow : list ETY) : Action (DataTable_ double ETY) unit :=
  appendRow validateRow_base indRow depRow.

(** [DataTable table{}; table.setColumnLabels({"a", "b"});] *)
Definition table_ab : DataTable_ double double :=
  exec (setColumnLabels ["a"; "b"]) DataTable_default.

(** [DataTable table{}; table.appendRow(0.25, {1, 2});] *)
Definition table_1x2 : DataTable_ double double :=
  exec (append 0.25%float [1%float; 2%float]) DataTable_default.

(** [table.setColumnLabels({"0", "1", "2", "3"})] on the default table, the
    first step of testDataTable.cpp. *)
Definition table_0123 : DataTable_ double double :=
  exec (setColumnLabels ["0"; "1"; "2"; "3"]) DataTable_default.

(** Two rows appended under the same independent value. *)
Definition table_twice : DataTable_ double double :=
  exec (append 0.5%float [1%float] ;# append 0.5%float [2%float])
    DataTable_default.

(** A labelled table of scalars with one row. *)
Definition table_scalar : DataTable_ double double :=
  exec (setColumnLabels ["a"] ;# append 0.5%float [1%float])
    DataTable_default.

(** A labelled table of [Vec3] with two columns and one row. *)
Definition tableVec3 : DataTable_ double Vec3 :=
  exec (setColumnLabels ["a"; "b"] ;#
        append 0.5%float [[# 1; 2; 3]; [# 4; 5; 6]]%float)
    DataTable_default.

(** [tableVec3] with string-valued and unsigned-valued metadata for its
    columns, as [dep_metadata] of testDataTable.cpp has them. *)
Definition tableVec3_units : DataTable_ double Vec3 :=
  set_dependentsMetaData (fun md =>
    setValueArrayForKey md "units" (StringArray ["m"; "s"])) tableVec3.

Definition tableVec3_column_index : DataTable_ double Vec3 :=
  set_dependentsMetaData (fun md =>
    setValueArrayForKey md "column-index" (UnsignedArray [1; 2])) tableVec3.

(** ** Blocks of the matrix *)

Section Blocks.
Context {ETX ETY : Type} `{!Element ETY}.

(** [m.block(i, j, r, c)]: the view of the [r] rows from row [i] on and the
    [c] columns from column [j] on.  The block lies inside the matrix. *)
Definition Matrix_block (m : Matrix_ ETY) (i j r c : Z)
  : Result (Matrix_ ETY) :=
  if bool_decide (0 <= i /\ 0 <= j /\ 0 <= r /\ 0 <= c
                  /\ i + r <= Z.of_nat (nrow m)
                  /\ j + c <= Z.of_nat (ncol m)) then
    Ok (mkMatrix
          ((fun row => take (Z.to_nat c) (drop (Z.to_nat j) row))
             <$> take (Z.to_nat r) (drop (Z.to_nat i) (elts m)))
          (Z.to_nat c))
  else Failure MatrixIndexOutOfRange.

(** [getMatrixBlock(size_t rowStart, size_t columnStart, size_t numRows,
    size_t numColumns)]. *)
Definition getMatrixBlock (t : DataTable_ ETX ETY)
    (rowStart columnStart numRows numColumns : Z) : Result (Matrix_ ETY) :=
  let* _ := throw_if
    (bool_decide (numRows = 0) || bool_decide (numColumns = 0))
    InvalidArgument in
  let* _ := throw_if (isRowIndexOutOfRange t rowStart)
    (RowIndexOutOfRange rowStart 0
       (cast_unsigned (Z.of_nat (nrow (_depData t)) - 1))) in
  let* _ := throw_if
    (isRowIndexOutOfRange t (cast_size_t (rowStart + numRows - 1)))
    (RowIndexOutOfRange (cast_size_t (rowStart + numRows - 1)) 0
       (cast_unsigned (Z.of_nat (nrow (_depData t)) - 1))) in
  let* _ := throw_if (isColumnIndexOutOfRange t columnStart)
    (ColumnIndexOutOfRange columnStart 0
       (cast_unsigned (Z.of_nat (ncol (_depData t)) - 1))) in
  let* _ := throw_if
    (isColumnIndexOutOfRange t (cast_size_t (columnStart + numColumns - 1)))
    (ColumnIndexOutOfRange (cast_size_t (columnStart + numColumns - 1)) 0
       (cast_unsigned (Z.of_nat (ncol (_depData t)) - 1))) in
  Matrix_block (_depData t) (cast_int rowStart) (cast_int columnStart)
    (cast_int numRows) (cast_int numColumns).
End Blocks.

(** ** Construction from a file *)

(** [std::map::at(key)] on a map given as the list of its entries in
    iteration order. *)
Fixpoint map_at {A} (m : list (string * A)) (key : string) : option A :=
  match m with
  | [] => None
  | (k, a) :: m' => if bool_decide (k = key) then Some a else map_at m' key
  end.

Section FromFile.
Context {ETX ETY : Type}.

(** What [FileAdapter::readFile] returns lies outside the sources: the
    tables are pointers to [AbstractDataTable], and
    [dynamic_cast<DataTable_*>] gives the table a pointer refers to when
    that table is a [DataTable_<ETX, ETY>], and the null pointer
    otherwise. *)
Variable AbstractDataTable : Type.
Variable dynamic_cast_DataTable :
  AbstractDataTable -> option (DataTable_ ETX ETY).

(** [DataTable_(const std::string& filename, const std::string& tablename)]
    once [FileAdapter::readFile(filename)] has returned [absTables].  The
    result is [None] where the behaviour is undefined: with no table and no
    name the constructor dereferences [absTables.cbegin()], which is the
    end of the map. *)
Definition DataTable_fromFile (absTables : list (string * AbstractDataTable))
    (tablename : string) : option (Result (DataTable_ ETX ETY)) :=
  if bool_decide (size_of absTables > 1) && bool_decide (tablename = "")
  then Some (Throw InvalidArgument)
  else
    let selected :=
      if bool_decide (tablename = "") then
        match absTables with
        | [] => None
        | (_, absTable) :: _ => Some (Ok absTable)
        end
      else
        match map_at absTables tablename with
        | Some absTable => Some (Ok absTable)
        | None => Some (Throw InvalidArgument)
        end in
    match selected with
    | None => None
    | Some r =>
        Some (let* absTable := r in
              match dynamic_cast_DataTable absTable with
              | None => Throw InvalidArgument
              | Some table => Ok table
              end)
    end.
End FromFile.

(** ** Tables in a consistent state *)

(** One independent value for each row, rows of the width of the matrix,
    and no row in a matrix without columns: what the default table
    satisfies, and what a successful append of a row that is not empty
    keeps. *)
Definition consistent {ETX ETY} (t : DataTable_ ETX ETY) : Prop :=
  length (_indData t) = nrow (_depData t)
  /\ rectangular (_depData t)
  /\ (nrow (_depData t) <> 0%nat -> ncol (_depData t) <> 0%nat).

(** A table of scalars with labels "a", "b" and two rows. *)
Definition table_2x2 : DataTable_ double double :=
  exec (setColumnLabels ["a"; "b"] ;#
        append 0.25%float [1%float; 2%float] ;#
        append 0.5%float [3%float; 4%float])
    DataTable_default.

(** The tables a file adapter returns for a file with two tables, and what
    [dynamic_cast<DataTable_<double, double>*>] makes of them. *)
Inductive FileTable : Type :=
| FileTable_double (t : DataTable_ double double)
| FileTable_Vec3 (t : DataTable_ double Vec3).

Definition FileTable_cast_double (a : FileTable)
  : option (DataTable_ double double) :=
  match a with
  | FileTable_double t => Some t
  | FileTable_Vec3 _ => None
  end.

Definition file_forces_markers : list (string * FileTable) :=
  [("forces", FileTable_double table_2x2);
   ("markers", FileTable_Vec3 tableVec3)].

(** A labelled table of [Vec<2, Vec3>] (a [SpatialVec]) with one column and
    one row. *)
Definition tableSpatialVec : DataTable_ double (vec (vec double 3) 2) :=
  exec (setColumnLabels ["f"] ;#
        append 0.5%float [[# [# 1; 2; 3]; [# 4; 5; 6]]]%float)
    DataTable_default.

(** * Properties *)

Lemma cast_unsigned_small (z : Z) : 0 <= z < 2 ^ 32 -> cast_unsigned z = z.
Proof. intros H. unfold cast_unsigned. by apply Z.mod_small. Qed.

Lemma cast_size_t_small (z : Z) : 0 <= z < 2 ^ 64 -> cast_size_t z = z.
Proof. intros H. unfold cast_size_t. by apply Z.mod_small. Qed.

Lemma cast_int_small (z : Z) : 0 <= z < 2 ^ 31 -> cast_int z = z.
Proof.
  intros H. unfold cast_int. rewrite Z.mod_small; lia.
Qed.

(** ** Field updates *)

Section Fields.
Context {ETX ETY : Type}.
Implicit Types (t : DataTable_ ETX ETY).

Lemma indData_set_indData f t :
  _indData (set_indData f t) = f (_indData t).
Proof. reflexivity. Qed.

Lemma depData_set_indData f t :
  _depData (set_indData f t) = _depData t.
Proof. reflexivity. Qed.

Lemma dependentsMetaData_set_indData f t :
  _dependentsMetaData (set_indData f t) = _dependentsMetaData t.
Proof. reflexivity. Qed.

Lemma indData_set_depData f t :
  _indData (set_depData f t) = _indData t.
Proof. reflexivity. Qed.

Lemma depData_set_depData f t :
  _depData (set_depData f t) = f (_depData t).
Proof. reflexivity. Qed.

Lemma dependentsMetaData_set_depData f t :
  _dependentsMetaData (set_depData f t) = _dependentsMetaData t.
Proof. reflexivity. Qed.

Lemma indData_set_dependentsMetaData f t :
  _indData (set_dependentsMetaData f t) = _indData t.
Proof. reflexivity. Qed.

Lemma depData_set_dependentsMetaData f t :
  _depData (set_dependentsMetaData f t) = _depData t.
Proof. reflexivity. Qed.

Lemma dependentsMetaData_set_dependentsMetaData f t :
  _dependentsMetaData (set_dependentsMetaData f t)
  = f (_dependentsMetaData t).
Proof. reflexivity. Qed.
End Fields.

Create Rewrite HintDb table.
#[export] Hint Rewrite
  @indData_set_indData @depData_set_indData @dependentsMetaData_set_indData
  @indData_set_depData @depData_set_depData @dependentsMetaData_set_depData
  @indData_set_dependentsMetaData @depData_set_dependentsMetaData
  @dependentsMetaData_set_dependentsMetaData : table.

Ltac fields := cbv beta in *; autorewrite with table in *.

(** ** appendRow *)

Section AppendRow.
Context {ETX ETY : Type} `{!Element ETY}.
Implicit Types (t : DataTable_ ETX ETY) (indRow : ETX) (depRow : list ETY).
Variable validateRow : DataTable_ ETX ETY -> Z -> ETX -> list ETY -> Result unit.

(** A row rejected by [validateRow] leaves the table as it was. *)
Lemma appendRow_rejected t indRow depRow e :
  validateRow t (size_of (_indData t)) indRow depRow = Throw e ->
  appendRow validateRow indRow depRow t = (Throw e, t).
Proof.
  intros H. unfold appendRow, bindA, readA. by rewrite H.
Qed.

(** The first append into a table that has labels compares the width of the
    row with the number of labels after the independent value is stored. *)
Lemma appendRow_first_wrong_width t indRow depRow labels :
  validateRow t (size_of (_indData t)) indRow depRow = Ok tt ->
  (nrow (_depData t) = 0 \/ ncol (_depData t) = 0)%nat ->
  _dependentsMetaData t !! "labels" = Some labels ->
  cast_unsigned (size_of depRow) <> ValueArray_size labels ->
  appendRow validateRow indRow depRow t
  = (Throw (IncorrectNumColumns (ValueArray_size labels)
              (cast_size_t (size_of depRow))),
     set_indData (fun ind => ind ++ [indRow]) t).
Proof.
  intros Hv Hempty Hl Hw.
  unfold appendRow, bindA, readA, writeA, catch_KeyNotFound. rewrite Hv.
  fields.
  assert (bool_decide (nrow (_depData t) = 0%nat)
          || bool_decide (ncol (_depData t) = 0%nat) = true) as ->.
  { destruct Hempty as [->| ->]; rewrite ?bool_decide_eq_true_2 by done;
      by rewrite ?orb_true_r. }
  fields. unfold getValueArrayForKey. rewrite Hl. cbn [bindR throw_if].
  by rewrite bool_decide_eq_true_2.
Qed.

(** In a table that has a row and a column no append throws
    [IncorrectNumColumns]: the comparison belongs to the other branch. *)
Lemma appendRow_later_no_width_check t indRow depRow expected actual :
  (forall e a, validateRow t (size_of (_indData t)) indRow depRow
               <> Throw (IncorrectNumColumns e a)) ->
  nrow (_depData t) <> 0%nat -> ncol (_depData t) <> 0%nat ->
  (appendRow validateRow indRow depRow t).1
  <> Throw (IncorrectNumColumns expected actual).
Proof.
  intros Hv Hr Hc.
  unfold appendRow, bindA, readA, writeA.
  destruct (validateRow t _ indRow depRow) as [[]|e|f] eqn:Hval;
    cbn [fst]; [|intros [= ->]; by eapply Hv|done].
  fields.
  rewrite !bool_decide_eq_false_2 by done. cbn [orb].
  unfold assignLastRow.
  destruct (Matrix_assignRow _ _ _) as [m|e|f] eqn:Ha; cbn [fst]; try done.
  unfold Matrix_assignRow in Ha. repeat case_bool_decide; done.
Qed.
End AppendRow.

(** C10: on the first append into a table whose matrix is empty and whose
    dependents metadata has no "labels" entry, the lookup of "labels"
    raises [KeyNotFound], which [appendRow] catches: the append succeeds for
    a row of any width, the matrix becomes that one row and the column count
    of the table becomes the width of the row. *)
Theorem appendRow_first_without_labels {ETX ETY : Type} `{!Element ETY}
    (validateRow : DataTable_ ETX ETY -> Z -> ETX -> list ETY -> Result unit)
    (t : DataTable_ ETX ETY) (indRow : ETX) (depRow : list ETY) :
  validateRow t (size_of (_indData t)) indRow depRow = Ok tt ->
  (nrow (_depData t) = 0 \/ ncol (_depData t) = 0)%nat ->
  _dependentsMetaData t !! "labels" = None ->
  getValueArrayForKey (_dependentsMetaData t) "labels" = Throw KeyNotFound
  /\ appendRow validateRow indRow depRow t
     = (Ok tt,
        set_depData (fun _ => mkMatrix [depRow] (length depRow))
          (set_indData (fun ind => ind ++ [indRow]) t))
  /\ getNumColumns (exec (appendRow validateRow indRow depRow) t)
     = size_of depRow
  /\ getNumRows (exec (appendRow validateRow indRow depRow) t) = 1.
Proof.
  intros Hv Hempty Hl.
  assert (appendRow validateRow indRow depRow t
          = (Ok tt,
             set_depData (fun _ => mkMatrix [depRow] (length depRow))
               (set_indData (fun ind => ind ++ [indRow]) t))) as Heq.
  { unfold appendRow, bindA, readA, writeA, catch_KeyNotFound. rewrite Hv.
    fields.
    assert (bool_decide (nrow (_depData t) = 0%nat)
            || bool_decide (ncol (_depData t) = 0%nat) = true) as ->.
    { destruct Hempty as [->| ->]; rewrite ?bool_decide_eq_true_2 by done;
        by rewrite ?orb_true_r. }
    fields. unfold getValueArrayForKey. rewrite Hl. cbn [bindR].
    unfold assignLastRow, Matrix_assignRow, Matrix_resize, nrow. fields.
    cbn [elts ncol replicate length].
    rewrite !bool_decide_eq_true_2 by (done || lia).
    reflexivity. }
  split; [by unfold getValueArrayForKey; rewrite Hl|].
  split; [done|].
  unfold exec. rewrite Heq. done.
Qed.

Lemma appendRow_first_without_labels_witness :
  getValueArrayForKey
    (_dependentsMetaData (DataTable_default : DataTable_ double double))
    "labels" = Throw KeyNotFound
  /\ appendRow validateRow_base 0.25%float [1%float; 2%float]
       (DataTable_default : DataTable_ double double)
     = (Ok tt,
        set_depData (fun _ => mkMatrix [[1%float; 2%float]] 2)
          (set_indData (fun ind => ind ++ [0.25%float]) DataTable_default))
  /\ getNumColumns (exec (appendRow validateRow_base 0.25%float
                            [1%float; 2%float])
                      (DataTable_default : DataTable_ double double)) = 2
  /\ getNumRows (exec (appendRow validateRow_base 0.25%float
                         [1%float; 2%float])
                   (DataTable_default : DataTable_ double double)) = 1.
Proof.
  apply (appendRow_first_without_labels validateRow_base
           (DataTable_default : DataTable_ double double)
           0.25%float [1%float; 2%float]).
  - reflexivity.
  - left. reflexivity.
  - reflexivity.
Defined.

(** C1 (the code departs from the claim): the table [table_ab] has labels
    "a" and "b" and no row.  Appending a row of one element fails with
    [IncorrectNumColumns 2 1], and the table this failed call leaves behind
    has the independent value 0.5 in its independent column while its matrix
    is still empty: the independent value is committed without the
    dependent row. *)
Theorem appendRow_failure_keeps_independent_value :
  append 0.5%float [1%float] table_ab
  = (Throw (IncorrectNumColumns 2 1),
     set_indData (fun _ => [0.5%float]) table_ab)
  /\ _indData table_ab = []
  /\ _indData (exec (append 0.5%float [1%float]) table_ab) = [0.5%float]
  /\ _depData (exec (append 0.5%float [1%float]) table_ab)
     = _depData table_ab.
Proof. repeat split; reflexivity. Qed.

(** C2 (the code departs from the claim): the table [table_1x2] has one row
    of two columns.  Appending a row of three elements does not throw
    [IncorrectNumColumns], whatever the counts: the width is not compared on
    this branch, the independent value is stored and the matrix is grown to
    two rows before the matrix library rejects the assignment of the row. *)
Theorem appendRow_later_wrong_width :
  getNumRows table_1x2 = 1
  /\ getNumColumns table_1x2 = 2
  /\ (forall expected actual,
        (append 0.5%float [1%float; 2%float; 3%float] table_1x2).1
        <> Throw (IncorrectNumColumns expected actual))
  /\ (append 0.5%float [1%float; 2%float; 3%float] table_1x2).1
     = Failure MatrixDimensionMismatch
  /\ getNumRows (exec (append 0.5%float [1%float; 2%float; 3%float])
                   table_1x2) = 2
  /\ _indData (exec (append 0.5%float [1%float; 2%float; 3%float])
                 table_1x2) = [0.25%float; 0.5%float].
Proof.
  assert ((append 0.5%float [1%float; 2%float; 3%float] table_1x2).1
          = Failure MatrixDimensionMismatch) as Hres by reflexivity.
  split; [reflexivity|]. split; [reflexivity|].
  split; [intros expected actual; rewrite Hres; discriminate|].
  split; [exact Hres|]. split; reflexivity.
Qed.

(** ** Index checks *)

Section IndexChecks.
Context {ETX ETY : Type} `{!Element ETY}.
Implicit Types (t : DataTable_ ETX ETY).

(** With at least one row, and as many independent values as rows, the row
    count is out of range and the error carries [0, rowCount - 1]. *)
Lemma getRowAtIndex_rowCount t :
  length (_indData t) = nrow (_depData t) ->
  0 < getNumRows t < 2 ^ 32 ->
  getRowAtIndex t (getNumRows t)
  = Throw (RowIndexOutOfRange (getNumRows t) 0 (getNumRows t - 1)).
Proof.
  intros Hinv Hn.
  unfold getRowAtIndex, isRowIndexOutOfRange, getNumRows, implementGetNumRows,
    size_of in *.
  rewrite Hinv, bool_decide_eq_true_2 by lia. cbn [throw_if bindR].
  rewrite cast_size_t_small, cast_unsigned_small by lia. done.
Qed.

(** With at least one column the column count is out of range and the error
    carries [0, colCount - 1]. *)
Lemma getDependentColumnAtIndex_colCount t :
  0 < getNumColumns t < 2 ^ 64 ->
  getDependentColumnAtIndex t (getNumColumns t)
  = Throw (ColumnIndexOutOfRange (getNumColumns t) 0 (getNumColumns t - 1)).
Proof.
  intros Hn.
  unfold getDependentColumnAtIndex, isColumnIndexOutOfRange, getNumColumns,
    implementGetNumColumns in *.
  rewrite (cast_size_t_small (Z.of_nat _)) by lia.
  rewrite bool_decide_eq_true_2 by lia. cbn [throw_if bindR].
  rewrite cast_size_t_small by lia. done.
Qed.
End IndexChecks.

(** C8 (the code departs from the claim): in the default table, with no
    row and no column, index 0 is the row count and the column count.  Both
    accessors throw their out-of-range error, but the upper bound they carry
    is not [count - 1]: the subtraction wraps around, to [2^32 - 1] for rows
    and to [2^64 - 1] for columns. *)
Theorem out_of_range_bounds_of_empty_table :
  getNumRows (DataTable_default : DataTable_ double double) = 0
  /\ getNumColumns (DataTable_default : DataTable_ double double) = 0
  /\ getRowAtIndex (DataTable_default : DataTable_ double double) 0
     = Throw (RowIndexOutOfRange 0 0 4294967295)
  /\ getDependentColumnAtIndex (DataTable_default : DataTable_ double double)
       0
     = Throw (ColumnIndexOutOfRange 0 0 18446744073709551615).
Proof. repeat split; reflexivity. Qed.

(** After a failed first append into [table_ab] the independent column is
    longer than the matrix: the row count is still 0, but index 0 passes the
    range check of [getRowAtIndex]. *)
Lemma getRowAtIndex_after_failed_append :
  getNumRows (exec (append 0.5%float [1%float]) table_ab) = 0
  /\ isRowIndexOutOfRange (exec (append 0.5%float [1%float]) table_ab) 0
     = false
  /\ forall index min max,
       getRowAtIndex (exec (append 0.5%float [1%float]) table_ab) 0
       <> Throw (RowIndexOutOfRange index min max).
Proof.
  split; [reflexivity|]. split; [reflexivity|].
  intros index min max.
  assert (getRowAtIndex (exec (append 0.5%float [1%float]) table_ab) 0
          = Failure MatrixIndexOutOfRange) as -> by reflexivity.
  discriminate.
Qed.

(** ** Validation of the dependents metadata *)

Lemma foldR_unit_Ok {A} (body : unit -> A -> Result unit) (l : list A) :
  foldR body l tt = Ok tt <-> Forall (fun a => body tt a = Ok tt) l.
Proof.
  induction l as [|a l IH]; simpl.
  - split; [constructor|done].
  - rewrite Forall_cons. destruct (body tt a) as [[]|e|f]; simpl.
    + rewrite IH. tauto.
    + split; [done|]. intros [? _]; done.
    + split; [done|]. intros [? _]; done.
Qed.

Lemma foldR_unit_first_error {A} (body : unit -> A -> Result unit)
    (l : list A) :
  foldR body l tt <> Ok tt ->
  exists a, a ∈ l /\ foldR body l tt = body tt a /\ body tt a <> Ok tt.
Proof.
  induction l as [|a l IH]; simpl; [done|].
  destruct (body tt a) as [[]|e|f] eqn:Hb; simpl.
  - intros H. destruct (IH H) as (a' & Hin & Heq & Hne).
    exists a'. split; [by right|done].
  - intros _. exists a. rewrite Hb. split; [by left|done].
  - intros _. exists a. rewrite Hb. split; [by left|done].
Qed.

Lemma elem_of_getKeys (md : DependentsMetaData) (key : string) :
  key ∈ getKeys md <-> is_Some (md !! key).
Proof.
  unfold getKeys. rewrite list_elem_of_fmap. split.
  - intros ([k a] & -> & Hin). apply elem_of_map_to_list in Hin. by exists a.
  - intros [a Ha]. exists (key, a). split; [done|].
    by apply elem_of_map_to_list.
Qed.

Section Validate.
Context {ETX ETY : Type} `{!Element ETY}.
Implicit Types (t : DataTable_ ETX ETY).

(** The check made for one key by the loop of [validateDependentsMetaData]. *)
Lemma validate_key_check (md : DependentsMetaData) numCols key a :
  md !! key = Some a ->
  (let* a := getValueArrayForKey md key in
   throw_if (bool_decide (numCols <> ValueArray_size a))
     (IncorrectMetaDataLength numCols (ValueArray_size a)))
  = if bool_decide (numCols = ValueArray_size a) then Ok tt
    else Throw (IncorrectMetaDataLength numCols (ValueArray_size a)).
Proof.
  intros Ha. unfold getValueArrayForKey. rewrite Ha. cbn [bindR].
  repeat case_bool_decide; done.
Qed.

Lemma validateDependentsMetaData_Ok t :
  validateDependentsMetaData t = Ok tt ->
  exists labels,
    _dependentsMetaData t !! "labels" = Some labels
    /\ ValueArray_size labels <> 0
    /\ (ncol (_depData t) = 0%nat
        \/ ValueArray_size labels
           = cast_unsigned (Z.of_nat (ncol (_depData t))))
    /\ forall key a, _dependentsMetaData t !! key = Some a ->
                     ValueArray_size a = ValueArray_size labels.
Proof.
  unfold validateDependentsMetaData, getValueArrayForKey.
  destruct (_dependentsMetaData t !! "labels") as [labels|] eqn:Hl;
    [|done].
  cbn [bindR]. set (numCols := cast_unsigned (ValueArray_size labels)).
  case_bool_decide as Hz; [done|]. cbn [throw_if bindR].
  destruct (bool_decide (ncol (_depData t) <> 0%nat) && _) eqn:Hc; [done|].
  cbn [throw_if bindR]. intros Hloop.
  apply foldR_unit_Ok in Hloop. rewrite Forall_forall in Hloop.
  assert (forall key a, _dependentsMetaData t !! key = Some a ->
                        ValueArray_size a = numCols) as Hall.
  { intros key a Ha.
    assert (key ∈ getKeys (_dependentsMetaData t)) as Hin
      by (apply elem_of_getKeys; eauto).
    specialize (Hloop key Hin). cbv beta in Hloop.
    unfold getValueArrayForKey in Hloop. rewrite Ha in Hloop.
    cbn [bindR] in Hloop. unfold throw_if in Hloop.
    case_bool_decide as Hne; [done|]. done. }
  exists labels. pose proof (Hall _ _ Hl) as Hlab.
  split; [done|]. split; [congruence|]. split.
  - apply andb_false_iff in Hc as [Hc|Hc].
    + left. apply bool_decide_eq_false in Hc. by apply dec_stable in Hc.
    + right. apply bool_decide_eq_false in Hc. apply dec_stable in Hc.
      congruence.
  - intros key a Ha. rewrite (Hall _ _ Ha). done.
Qed.

Lemma validateDependentsMetaData_missing t :
  _dependentsMetaData t !! "labels" = None ->
  validateDependentsMetaData t = Throw MissingMetaData.
Proof.
  intros Hl. unfold validateDependentsMetaData, getValueArrayForKey.
  by rewrite Hl.
Qed.

Lemma validateDependentsMetaData_zero t labels :
  _dependentsMetaData t !! "labels" = Some labels ->
  ValueArray_size labels = 0 ->
  validateDependentsMetaData t = Throw MetaDataLengthZero.
Proof.
  intros Hl Hz. unfold validateDependentsMetaData, getValueArrayForKey.
  rewrite Hl, Hz. reflexivity.
Qed.

Lemma validateDependentsMetaData_labels_length t labels :
  _dependentsMetaData t !! "labels" = Some labels ->
  0 < ValueArray_size labels < 2 ^ 32 ->
  0 < getNumColumns t < 2 ^ 31 ->
  ValueArray_size labels <> getNumColumns t ->
  validateDependentsMetaData t
  = Throw (IncorrectMetaDataLength (getNumColumns t)
             (ValueArray_size labels)).
Proof.
  intros Hl Hs Hc Hne.
  unfold validateDependentsMetaData, getValueArrayForKey, getNumColumns,
    implementGetNumColumns in *.
  rewrite Hl. cbn [bindR].
  rewrite !cast_unsigned_small, cast_size_t_small by lia.
  rewrite bool_decide_eq_false_2 by lia. cbn [throw_if bindR].
  rewrite !bool_decide_eq_true_2 by lia. reflexivity.
Qed.

Lemma validateDependentsMetaData_other_length t labels key a :
  _dependentsMetaData t !! "labels" = Some labels ->
  0 < ValueArray_size labels < 2 ^ 32 ->
  getNumColumns t < 2 ^ 31 ->
  getNumColumns t = 0 \/ ValueArray_size labels = getNumColumns t ->
  _dependentsMetaData t !! key = Some a ->
  ValueArray_size a <> ValueArray_size labels ->
  exists actual,
    actual <> ValueArray_size labels
    /\ validateDependentsMetaData t
       = Throw (IncorrectMetaDataLength (ValueArray_size labels) actual).
Proof.
  intros Hl Hs Hc Hcols Ha Hne.
  unfold validateDependentsMetaData.
  unfold getValueArrayForKey at 1. rewrite Hl. cbn [bindR].
  unfold getNumColumns, implementGetNumColumns in *.
  rewrite !cast_unsigned_small by lia.
  rewrite bool_decide_eq_false_2 by lia. cbn [throw_if bindR].
  assert (bool_decide (ncol (_depData t) <> 0%nat)
          && bool_decide (ValueArray_size labels
                          <> Z.of_nat (ncol (_depData t))) = false) as ->.
  { apply andb_false_iff. destruct Hcols as [H0|Heq].
    - left. apply bool_decide_eq_false_2. lia.
    - right. apply bool_decide_eq_false_2. lia. }
  cbn [bindR].
  match goal with |- context [foldR ?b ?l tt] =>
    destruct (foldR_unit_first_error b l) as (key' & Hin & -> & Hbad) end.
  { rewrite foldR_unit_Ok, Forall_forall. intros Hall.
    assert (key ∈ getKeys (_dependentsMetaData t)) as Hin
      by (apply elem_of_getKeys; eauto).
    specialize (Hall key Hin). cbv beta in Hall.
    rewrite (validate_key_check _ _ _ _ Ha) in Hall.
    case_bool_decide; [congruence|done]. }
  apply elem_of_getKeys in Hin as [a' Ha']. cbv beta in Hbad |- *.
  rewrite (validate_key_check _ _ _ _ Ha') in Hbad |- *.
  case_bool_decide as Hd; [done|]. exists (ValueArray_size a'). done.
Qed.
End Validate.

(** C9 (as amended): when [validateDependentsMetaData] returns without
    error, "labels" is registered with an array that is not empty, its
    length is the column count of the table unless the table has no column
    yet, and every registered key has an array of the length of "labels".
    Validation throws [MissingMetaData] when "labels" is absent,
    [MetaDataLengthZero] when it is empty, and [IncorrectMetaDataLength]
    when the table has columns and their count differs from the length of
    "labels", or when the length of another array differs from it.  The
    column count is an [int], and the lengths compared are below [2^32]. *)
Theorem validateDependentsMetaData_spec {ETX ETY : Type} `{!Element ETY}
    (t : DataTable_ ETX ETY) :
  getNumColumns t < 2 ^ 31 ->
  (validateDependentsMetaData t = Ok tt ->
   exists labels,
     _dependentsMetaData t !! "labels" = Some labels
     /\ ValueArray_size labels <> 0
     /\ (getNumColumns t <> 0 -> ValueArray_size labels = getNumColumns t)
     /\ forall key a, _dependentsMetaData t !! key = Some a ->
                      ValueArray_size a = ValueArray_size labels)
  /\ (_dependentsMetaData t !! "labels" = None ->
      validateDependentsMetaData t = Throw MissingMetaData)
  /\ (forall labels,
        _dependentsMetaData t !! "labels" = Some labels ->
        ValueArray_size labels = 0 ->
        validateDependentsMetaData t = Throw MetaDataLengthZero)
  /\ (forall labels,
        _dependentsMetaData t !! "labels" = Some labels ->
        0 < ValueArray_size labels < 2 ^ 32 ->
        getNumColumns t <> 0 ->
        ValueArray_size labels <> getNumColumns t ->
        validateDependentsMetaData t
        = Throw (IncorrectMetaDataLength (getNumColumns t)
                   (ValueArray_size labels)))
  /\ (forall labels key a,
        _dependentsMetaData t !! "labels" = Some labels ->
        0 < ValueArray_size labels < 2 ^ 32 ->
        getNumColumns t = 0 \/ ValueArray_size labels = getNumColumns t ->
        _dependentsMetaData t !! key = Some a ->
        ValueArray_size a <> ValueArray_size labels ->
        exists actual,
          actual <> ValueArray_size labels
          /\ validateDependentsMetaData t
             = Throw (IncorrectMetaDataLength (ValueArray_size labels)
                        actual)).
Proof.
  intros Hint.
  assert (0 <= getNumColumns t) as Hpos
    by (unfold getNumColumns, implementGetNumColumns; lia).
  repeat split.
  - intros Hok.
    destruct (validateDependentsMetaData_Ok t Hok)
      as (labels & Hl & Hnz & Hcols & Hall).
    exists labels. repeat split; try done.
    intros Hc. unfold getNumColumns, implementGetNumColumns in *.
    destruct Hcols as [H0|Heq]; [lia|].
    rewrite Heq. apply cast_unsigned_small. lia.
  - apply validateDependentsMetaData_missing.
  - apply validateDependentsMetaData_zero.
  - intros labels Hl Hs Hc Hne.
    apply validateDependentsMetaData_labels_length; try done. lia.
  - intros labels key a Hl Hs Hcols Ha Hne.
    by eapply validateDependentsMetaData_other_length.
Qed.

Lemma validateDependentsMetaData_spec_witness :
  exists labels,
    _dependentsMetaData table_scalar !! "labels" = Some labels
    /\ ValueArray_size labels = getNumColumns table_scalar.
Proof.
  destruct (validateDependentsMetaData_spec table_scalar) as [Hok _].
  - vm_compute. reflexivity.
  - destruct Hok as (labels & Hl & _ & Hc & _).
    + vm_compute. reflexivity.
    + exists labels. split; [exact Hl|]. apply Hc.
      vm_compute. discriminate.
Defined.

(** C9, the claim as stated fails: after [setColumnLabels({"0", "1", "2",
    "3"})] on the default table, validation returns without error while the
    "labels" array has four entries and the table has no column. *)
Lemma validateDependentsMetaData_labels_before_columns :
  ~ (validateDependentsMetaData table_0123 = Ok tt ->
     forall labels,
       _dependentsMetaData table_0123 !! "labels" = Some labels ->
       ValueArray_size labels = getNumColumns table_0123).
Proof.
  intros H.
  assert (validateDependentsMetaData table_0123 = Ok tt) as Hok
    by (vm_compute; reflexivity).
  assert (_dependentsMetaData table_0123 !! "labels"
          = Some (StringArray ["0"; "1"; "2"; "3"])) as Hl
    by (vm_compute; reflexivity).
  specialize (H Hok _ Hl). vm_compute in H. discriminate H.
Qed.

(** ** Rows by independent value *)

Section GetRow.
Context {ETX ETY : Type} `{!Element ETY}.
Variable ETX_eqb : ETX -> ETX -> bool.
Implicit Types (t : DataTable_ ETX ETY) (l : list ETX) (v : ETX).

Lemma std_find_le l v : (std_find ETX_eqb l v <= length l)%nat.
Proof.
  induction l as [|x l IH]; simpl; [lia|].
  destruct (ETX_eqb x v); lia.
Qed.

(** The search reaches the end exactly when no element equals the value. *)
Lemma std_find_end l v :
  std_find ETX_eqb l v = length l <-> Forall (fun x => ETX_eqb x v = false) l.
Proof.
  induction l as [|x l IH]; simpl.
  - split; [constructor|done].
  - rewrite Forall_cons. destruct (ETX_eqb x v) eqn:Hx.
    + split; [done|]. intros [? _]; done.
    + split.
      * intros [= H]. split; [done|]. by apply IH.
      * intros [_ H]. f_equal. by apply IH.
Qed.

(** The search stops at the first element that equals the value. *)
Lemma std_find_first l v (i : nat) x :
  l !! i = Some x ->
  ETX_eqb x v = true ->
  (forall (j : nat) y, (j < i)%nat -> l !! j = Some y -> ETX_eqb y v = false) ->
  std_find ETX_eqb l v = i.
Proof.
  revert i. induction l as [|z l IH]; intros i Hi Hx Hbefore; [done|].
  destruct i as [|i]; simpl in *.
  - injection Hi as ->. by rewrite Hx.
  - rewrite (Hbefore 0%nat z) by (done || lia). f_equal.
    apply IH; [done..|].
    intros j y Hj Hy. apply (Hbefore (S j) y); [lia|done].
Qed.

Lemma getRow_not_found t v :
  Forall (fun x => ETX_eqb x v = false) (_indData t) <->
  getRow ETX_eqb t v = Throw KeyNotFound.
Proof.
  unfold getRow. rewrite <- std_find_end. split.
  - intros ->. by rewrite bool_decide_eq_true_2.
  - case_bool_decide as Hd; [done|]. cbn [throw_if bindR].
    unfold Matrix_row. case_bool_decide; [|done].
    destruct (elts _ !! _); done.
Qed.

Lemma getRow_found t v (i : nat) x :
  Z.of_nat (nrow (_depData t)) < 2 ^ 31 ->
  (i < nrow (_depData t))%nat ->
  _indData t !! i = Some x ->
  ETX_eqb x v = true ->
  (forall (j : nat) y,
     (j < i)%nat -> _indData t !! j = Some y -> ETX_eqb y v = false) ->
  exists row,
    elts (_depData t) !! i = Some row
    /\ getRowAtIndex t (Z.of_nat i) = Ok row
    /\ getRow ETX_eqb t v = Ok row.
Proof.
  intros Hint Hi Hx Heq Hbefore.
  destruct (lookup_lt_is_Some_2 (elts (_depData t)) i Hi) as [row Hrow].
  pose proof (lookup_lt_Some _ _ _ Hx) as Hlen.
  exists row. split; [done|]. split.
  - unfold getRowAtIndex, isRowIndexOutOfRange, size_of.
    rewrite bool_decide_eq_false_2 by lia. cbn [throw_if bindR].
    rewrite cast_int_small by lia. unfold Matrix_row.
    rewrite bool_decide_eq_true_2 by lia. by rewrite Nat2Z.id, Hrow.
  - unfold getRow. rewrite (std_find_first _ _ _ _ Hx Heq Hbefore).
    rewrite bool_decide_eq_false_2 by lia. cbn [throw_if bindR].
    rewrite cast_int_small by lia. unfold Matrix_row.
    rewrite bool_decide_eq_true_2 by lia. by rewrite Nat2Z.id, Hrow.
Qed.
End GetRow.

(** C7 (as amended): for every valid row index [i] whose independent value
    [v] equals itself and is not equalled by an earlier entry of the
    independent column, [getRow(v)] succeeds and returns the row
    [getRowAtIndex(i)] returns.  [getRow] searches the independent column
    from its first entry, resolves to the first entry that equals the value
    given, and fails with [KeyNotFound] exactly when no entry equals it.
    The row count is an [int]. *)
Theorem getRow_getRowAtIndex {ETX ETY : Type} `{!Element ETY}
    (ETX_eqb : ETX -> ETX -> bool) (t : DataTable_ ETX ETY) :
  getNumRows t < 2 ^ 31 ->
  (forall (i : nat) v,
     0 <= Z.of_nat i < getNumRows t ->
     _indData t !! i = Some v ->
     ETX_eqb v v = true ->
     (forall (j : nat) y,
        (j < i)%nat -> _indData t !! j = Some y -> ETX_eqb y v = false) ->
     exists row,
       getRowAtIndex t (Z.of_nat i) = Ok row
       /\ getRow ETX_eqb t v = Ok row)
  /\ (forall (i : nat) x v,
        0 <= Z.of_nat i < getNumRows t ->
        _indData t !! i = Some x ->
        ETX_eqb x v = true ->
        (forall (j : nat) y,
           (j < i)%nat -> _indData t !! j = Some y -> ETX_eqb y v = false) ->
        getRow ETX_eqb t v = getRowAtIndex t (Z.of_nat i))
  /\ (forall v,
        (forall x, x ∈ _indData t -> ETX_eqb x v = false) <->
        getRow ETX_eqb t v = Throw KeyNotFound).
Proof.
  intros Hint. unfold getNumRows, implementGetNumRows in *.
  repeat split.
  - intros i v Hi Hv Hrefl Hbefore.
    destruct (getRow_found ETX_eqb t v i v) as (row & _ & H1 & H2);
      try done; [lia|].
    by exists row.
  - intros i x v Hi Hx Heq Hbefore.
    destruct (getRow_found ETX_eqb t v i x) as (row & _ & H1 & H2);
      try done; [lia|].
    by rewrite H1, H2.
  - intros H. apply getRow_not_found. by apply Forall_forall.
  - intros H. apply Forall_forall. by apply getRow_not_found.
Qed.

Lemma getRow_getRowAtIndex_witness :
  exists row,
    getRowAtIndex table_twice 0 = Ok row
    /\ getRow double_eqb table_twice 0.5%float = Ok row.
Proof.
  destruct (getRow_getRowAtIndex double_eqb table_twice) as [H _].
  - vm_compute. reflexivity.
  - apply (H 0%nat 0.5%float).
    + vm_compute. split; [discriminate|reflexivity].
    + vm_compute. reflexivity.
    + vm_compute. reflexivity.
    + intros j y Hj. lia.
Defined.

(** C7, the claim as stated fails: in [table_twice] two rows were appended
    under the independent value 0.5.  Index 1 is valid, and
    [getRow(independentColumn[1])] returns the row at index 0, which is not
    the row [getRowAtIndex(1)] returns. *)
Lemma getRow_duplicate_independent_value :
  0 <= 1 < getNumRows table_twice
  /\ _indData table_twice !! 1%nat = Some 0.5%float
  /\ getRow double_eqb table_twice 0.5%float = Ok [1%float]
  /\ getRowAtIndex table_twice 1 = Ok [2%float]
  /\ getRow double_eqb table_twice 0.5%float <> getRowAtIndex table_twice 1.
Proof.
  split; [vm_compute; split; [discriminate|reflexivity]|].
  split; [vm_compute; reflexivity|]. split; [vm_compute; reflexivity|].
  split; [vm_compute; reflexivity|].
  intros H.
  apply (f_equal (fun r => match r with
                           | Ok (x :: _) => PrimFloat.eqb x 1%float
                           | _ => false
                           end)) in H.
  vm_compute in H. discriminate H.
Qed.

(** ** Reasoning about calls in sequence *)

Section Actions.
Context {S : Type}.

Lemma bindA_Ok {A B} (c : Action S A) (k : A -> Action S B) s b s'' :
  bindA c k s = (Ok b, s'') <->
  exists a s', c s = (Ok a, s') /\ k a s' = (Ok b, s'').
Proof.
  unfold bindA. destruct (c s) as [[a|e|f] s']; split.
  - intros H. by exists a, s'.
  - intros (a' & s1 & Heq & H). by simplify_eq.
  - done.
  - intros (a' & s1 & Heq & _). by simplify_eq.
  - done.
  - intros (a' & s1 & Heq & _). by simplify_eq.
Qed.

Lemma bindA_Throw {A B} (c : Action S A) (k : A -> Action S B) s e s'' :
  bindA c k s = (Throw e, s'') <->
  c s = (Throw e, s'')
  \/ exists a s', c s = (Ok a, s') /\ k a s' = (Throw e, s'').
Proof.
  unfold bindA. destruct (c s) as [[a|e'|f] s']; split.
  - intros H. right. by exists a, s'.
  - intros [Heq|(a' & s1 & Heq & H)]; by simplify_eq.
  - intros Heq. left. by simplify_eq.
  - intros [Heq|(a' & s1 & Heq & _)]; by simplify_eq.
  - done.
  - intros [Heq|(a' & s1 & Heq & _)]; by simplify_eq.
Qed.

Lemma readA_eq {A} (f : S -> Result A) s r s' :
  readA f s = (r, s') <-> f s = r /\ s' = s.
Proof. unfold readA. split; [intros Heq; by simplify_eq|by intros [-> ->]]. Qed.

Lemma writeA_eq (f : S -> S) s r s' :
  writeA f s = (r, s') <-> r = Ok tt /\ s' = f s.
Proof. unfold writeA. split; [intros Heq; by simplify_eq|by intros [-> ->]]. Qed.

(** A property every pass through the body preserves holds after the
    loop, however the loop ends. *)
Lemma forA_preserves {A} (I : S -> Prop) (body : A -> Action S unit) l :
  (forall a s r s', I s -> body a s = (r, s') -> I s') ->
  forall s r s', I s -> forA l body s = (r, s') -> I s'.
Proof.
  intros Hbody. induction l as [|a l IH]; intros s r s' Hs; simpl.
  - unfold retA. intros Heq. by simplify_eq.
  - unfold bindA. destruct (body a s) as [[[]|e|f] s1] eqn:Hb.
    + apply IH. by eapply Hbody.
    + intros Heq. simplify_eq. by eapply Hbody.
    + intros Heq. simplify_eq. by eapply Hbody.
Qed.

(** An exception that leaves the loop was thrown by a pass through the
    body. *)
Lemma forA_Throw {A} (body : A -> Action S unit) l s e s' :
  forA l body s = (Throw e, s') ->
  exists a s1, a ∈ l /\ body a s1 = (Throw e, s').
Proof.
  revert s. induction l as [|a l IH]; intros s; simpl.
  - unfold retA. done.
  - intros H. apply bindA_Throw in H as [H|(u & s1 & _ & H)].
    + exists a, s. split; [by left|done].
    + destruct (IH _ H) as (a' & s2 & Hin & Hb).
      exists a', s2. split; [by right|done].
Qed.

Lemma construct_Ok (init : S) (body : Action S unit) this :
  construct init body = Ok this <-> body init = (Ok tt, this).
Proof.
  unfold construct. destruct (body init) as [[[]|e|f] s]; split;
    intros Heq; by simplify_eq.
Qed.

Lemma construct_Throw (init : S) (body : Action S unit) e :
  construct init body = Throw e <-> exists s, body init = (Throw e, s).
Proof.
  unfold construct. destruct (body init) as [[[]|e'|f] s]; split;
    try done; try (intros (s' & Heq); by simplify_eq).
  intros Heq. simplify_eq. by exists s.
Qed.
End Actions.

(** ** appendRow and the metadata *)

Lemma appendRow_dependentsMetaData {ETX ETY : Type} `{!Element ETY}
    (validateRow : DataTable_ ETX ETY -> Z -> ETX -> list ETY -> Result unit)
    indRow depRow (t : DataTable_ ETX ETY) r t' :
  appendRow validateRow indRow depRow t = (r, t') ->
  _dependentsMetaData t' = _dependentsMetaData t.
Proof.
  unfold appendRow, bindA, readA, writeA, catch_KeyNotFound, assignLastRow.
  intros H.
  repeat (case_match; simplify_eq/=); reflexivity.
Qed.

(** ** The exceptions of the calls the flattening constructor makes *)

Lemma getValueArrayForKey_Throw (md : DependentsMetaData) key e :
  getValueArrayForKey md key = Throw e -> e = KeyNotFound.
Proof.
  unfold getValueArrayForKey. destruct (md !! key); intros H; by simplify_eq.
Qed.

Lemma throw_if_Throw cond e e' : throw_if cond e = Throw e' -> e' = e.
Proof. unfold throw_if. destruct cond; intros H; by simplify_eq. Qed.

Lemma bindR_Throw {A B} (r : Result A) (k : A -> Result B) e :
  bindR r k = Throw e -> r = Throw e \/ exists a, r = Ok a /\ k a = Throw e.
Proof.
  destruct r as [a|e'|f]; cbn [bindR]; intros H.
  - right. by exists a.
  - left. by simplify_eq.
  - discriminate H.
Qed.

Lemma validateDependentsMetaData_Throw {ETX ETY : Type} `{!Element ETY}
    (t : DataTable_ ETX ETY) e :
  validateDependentsMetaData t = Throw e -> e <> InvalidArgument.
Proof.
  unfold validateDependentsMetaData. intros H.
  apply bindR_Throw in H as [H|(numCols & _ & H)].
  { unfold getValueArrayForKey in H.
    destruct (_dependentsMetaData t !! "labels"); by simplify_eq. }
  apply bindR_Throw in H as [H|(_ & _ & H)].
  { apply throw_if_Throw in H as ->. done. }
  apply bindR_Throw in H as [H|(_ & _ & H)].
  { apply throw_if_Throw in H as ->. done. }
  match type of H with foldR ?b ?l tt = _ =>
    destruct (foldR_unit_first_error b l) as (key & _ & Heq & _);
      [by rewrite H|] end.
  rewrite H in Heq. symmetry in Heq. cbv beta in Heq.
  apply bindR_Throw in Heq as [Heq|(a & _ & Heq)].
  - apply getValueArrayForKey_Throw in Heq as ->. done.
  - apply throw_if_Throw in Heq as ->. done.
Qed.

Lemma getRowAtIndex_Throw {ETX ETY : Type} `{!Element ETY}
    (t : DataTable_ ETX ETY) index e :
  getRowAtIndex t index = Throw e -> e <> InvalidArgument.
Proof.
  unfold getRowAtIndex. intros H.
  apply bindR_Throw in H as [H|(_ & _ & H)].
  - apply throw_if_Throw in H as ->. done.
  - unfold Matrix_row in H. repeat case_match; by simplify_eq.
Qed.

Lemma appendRow_base_Throw {ETX ETY : Type} `{!Element ETY}
    indRow depRow (t : DataTable_ ETX ETY) e t' :
  appendRow validateRow_base indRow depRow t = (Throw e, t') ->
  exists expected actual, e = IncorrectNumColumns expected actual.
Proof.
  unfold appendRow, bindA, readA, writeA, catch_KeyNotFound, assignLastRow,
    validateRow_base, getValueArrayForKey, throw_if, Matrix_assignRow.
  intros H.
  repeat (case_match; simplify_eq/=); eauto.
Qed.

Section FlattenExceptions.
Context {ThatETY : Type} `{!Element ThatETY, !Composite ThatETY}.
Implicit Types (that : DataTable_ double ThatETY)
  (this : DataTable_ double double) (suffixes : list string).

(** The arguments are accepted exactly when the three conditions hold. *)
Lemma checkArguments_Ok that suffixes :
  checkArguments that suffixes = Ok tt <->
  hasColumnLabels that = true
  /\ getNumRows that <> 0
  /\ getNumColumns that <> 0
  /\ (suffixes = []
      \/ size_of suffixes = Z.of_nat (numComponentsPerElement that)).
Proof.
  unfold checkArguments, throw_if.
  destruct (hasColumnLabels that); cbn [negb bindR];
    [|split; [discriminate|intros [? _]; discriminate]].
  repeat case_bool_decide; cbn [orb andb negb bindR];
    (split; [try discriminate; tauto|intros (_ & ? & ? & [?|?]); done]).
Qed.

(** Arguments that are not accepted are rejected with [InvalidArgument]. *)
Lemma checkArguments_cases that suffixes :
  checkArguments that suffixes = Ok tt
  \/ checkArguments that suffixes = Throw InvalidArgument.
Proof.
  unfold checkArguments, throw_if.
  destruct (hasColumnLabels that); cbn [negb bindR]; [|by right].
  repeat case_bool_decide; cbn [orb andb negb bindR]; auto.
Qed.

Lemma replicateMetaData_Throw that key this e this' :
  replicateMetaData that key this = (Throw e, this') -> e = KeyNotFound.
Proof.
  unfold replicateMetaData. case_bool_decide as Hkey; [unfold retA; done|].
  intros H. apply bindA_Throw in H as [H|(a & s & _ & H)].
  - apply readA_eq in H as [H _].
    by apply getValueArrayForKey_Throw in H.
  - unfold dynamic_cast_StringArray, writeA in H.
    destruct a; by simplify_eq.
Qed.

Lemma appendSplitRow_Throw that r this e this' :
  appendSplitRow that r this = (Throw e, this') -> e <> InvalidArgument.
Proof.
  unfold appendSplitRow. intros H.
  apply bindA_Throw in H as [H|(thatInd & s & _ & H)].
  { apply readA_eq in H as [H _]. destruct (_ !! _); by simplify_eq. }
  apply bindA_Throw in H as [H|(thatRow & s' & _ & H)].
  { apply readA_eq in H as [H _]. exact (getRowAtIndex_Throw _ _ _ H). }
  apply appendRow_base_Throw in H as (? & ? & ->). done.
Qed.

(** Once the arguments are accepted, no [InvalidArgument] is thrown. *)
Lemma splitColumns_Throw that suffixes this e this' :
  splitColumns that suffixes this = (Throw e, this') -> e <> InvalidArgument.
Proof.
  unfold splitColumns. intros H.
  apply bindA_Throw in H as [H|(keys & s0 & _ & H)].
  { apply readA_eq in H as [H _]. done. }
  apply bindA_Throw in H as [H|(_ & s1 & _ & H)].
  { apply forA_Throw in H as (key & s & _ & H).
    apply replicateMetaData_Throw in H as ->. done. }
  apply bindA_Throw in H as [H|(thatLabels & s2 & _ & H)].
  { apply readA_eq in H as [H _]. unfold getColumnLabels in H.
    apply bindR_Throw in H as [H|(a & _ & H)].
    - apply getValueArrayForKey_Throw in H as ->. done.
    - destruct a; by simplify_eq. }
  apply bindA_Throw in H as [H|(_ & s3 & _ & H)].
  { unfold setColumnLabels in H.
    apply bindA_Throw in H as [H|(_ & s & _ & H)].
    - apply writeA_eq in H as [H _]. done.
    - apply readA_eq in H as [H _].
      exact (validateDependentsMetaData_Throw _ _ H). }
  apply forA_Throw in H as (r & s & _ & H).
  exact (appendSplitRow_Throw _ _ _ _ _ H).
Qed.
End FlattenExceptions.

(** C6: the flattening constructor fails with [InvalidArgument] exactly
    when the source has no column labels, or has no row, or has no column,
    or a list of suffixes that is not empty is given whose size is not the
    number of components of an element.  An empty list of suffixes is never
    a reason for [InvalidArgument]. *)
Theorem flatten_ctor_InvalidArgument {ThatETY : Type}
    `{!Element ThatETY, !Composite ThatETY}
    (that : DataTable_ double ThatETY) (suffixes : list string) :
  flatten_ctor that suffixes = Throw InvalidArgument <->
  hasColumnLabels that = false
  \/ getNumRows that = 0
  \/ getNumColumns that = 0
  \/ (suffixes <> []
      /\ size_of suffixes <> Z.of_nat (numComponentsPerElement that)).
Proof.
  unfold flatten_ctor. rewrite construct_Throw.
  pose proof (checkArguments_Ok that suffixes) as Hok.
  destruct (checkArguments_cases that suffixes) as [Hc|Hc]; split.
  - intros (s & H). apply bindA_Throw in H as [H|(_ & s' & _ & H)].
    + apply readA_eq in H as [H _]. congruence.
    + by apply splitColumns_Throw in H.
  - intros Hbad. apply Hok in Hc as (Hl & Hr & Hcol & Hs).
    destruct Hbad as [Hbad|[Hbad|[Hbad|[Hne Hsz]]]]; [congruence|done..|].
    by destruct Hs.
  - intros _.
    destruct (hasColumnLabels that) eqn:Hl; [|by left]. right.
    destruct (decide (getNumRows that = 0)) as [|Hr]; [by left|]. right.
    destruct (decide (getNumColumns that = 0)) as [|Hcol]; [by left|]. right.
    destruct (decide (suffixes = [])) as [Hs|Hs].
    { rewrite (proj2 Hok) in Hc; [done|]. repeat split; auto. }
    split; [done|]. intros Hsz.
    rewrite (proj2 Hok) in Hc; [done|]. repeat split; auto.
  - intros _. eexists. unfold bindA, readA. rewrite Hc. reflexivity.
Qed.

Lemma flatten_ctor_InvalidArgument_witness :
  flatten_ctor tableVec3 ["_x"; "_y"] = Throw InvalidArgument.
Proof.
  apply (proj2 (flatten_ctor_InvalidArgument tableVec3 ["_x"; "_y"])).
  right. right. right. split.
  - discriminate.
  - vm_compute. discriminate.
Defined.

(** ** The labels of the flattened table *)


Lemma setColumnLabels_Ok {ETX ETY : Type} `{!Element ETY}
    (labels : list string) (t t' : DataTable_ ETX ETY) :
  setColumnLabels labels t = (Ok tt, t') ->
  t' = set_dependentsMetaData (fun md =>
         <["labels" := StringArray labels]> (delete "labels" md)) t
  /\ validateDependentsMetaData t' = Ok tt.
Proof.
  unfold setColumnLabels. intros H.
  apply bindA_Ok in H as (u & s & H1 & H2).
  apply writeA_eq in H1 as [_ Hs]. apply readA_eq in H2 as [H2 Ht].
  subst. split; [reflexivity|exact H2].
Qed.

Section FlattenLabels.
Context {ThatETY : Type} `{!Element ThatETY, !Composite ThatETY}.
Implicit Types (that : DataTable_ double ThatETY)
  (this : DataTable_ double double) (suffixes : list string).

Lemma appendSplitRow_dependentsMetaData that r this res this' :
  appendSplitRow that r this = (res, this') ->
  _dependentsMetaData this' = _dependentsMetaData this.
Proof.
  unfold appendSplitRow, bindA, readA. intros H.
  destruct (_indData that !! r); [|by simplify_eq].
  destruct (getRowAtIndex that (Z.of_nat r)); [|by simplify_eq..].
  by eapply appendRow_dependentsMetaData.
Qed.

(** The steps of a construction that returns. *)
Lemma flatten_ctor_Ok that suffixes this :
  flatten_ctor that suffixes = Ok this ->
  exists this1 thatLabels this2,
    checkArguments that suffixes = Ok tt
    /\ forA (getKeys (_dependentsMetaData that)) (replicateMetaData that)
         (mkDataTable (_tableMetaData that) (_independentMetaData that)
            (_dependentsMetaData that) [] Matrix_empty)
       = (Ok tt, this1)
    /\ getColumnLabels that = Ok thatLabels
    /\ setColumnLabels (flat_map (splitLabel that suffixes) thatLabels) this1
       = (Ok tt, this2)
    /\ forA (seq 0 (Z.to_nat (getNumRows that))) (appendSplitRow that) this2
       = (Ok tt, this).
Proof.
  unfold flatten_ctor, splitColumns. rewrite construct_Ok. intros H.
  apply bindA_Ok in H as ([] & s & Hc & H). apply readA_eq in Hc as [Hc ->].
  apply bindA_Ok in H as (keys & s & Hk & H). apply readA_eq in Hk as [Hk ->].
  injection Hk as <-.
  apply bindA_Ok in H as ([] & this1 & Hloop & H).
  apply bindA_Ok in H as (thatLabels & s & Hl & H).
  apply readA_eq in Hl as [Hl ->].
  apply bindA_Ok in H as ([] & this2 & Hset & H).
  by exists this1, thatLabels, this2.
Qed.

End FlattenLabels.


(** ** Flattening a table of scalars *)

(** C3 (as amended): for a table of scalars [flatten()] selects the copy
    constructor.  It returns, for every table, a table with the same row
    count, the same column count, the same independent column, the same
    matrix and the same column labels as the source: no suffix is added to
    the labels. *)
Theorem flatten_scalar_copies (t : DataTable_ double double) :
  exists flat,
    flatten t = Ok flat
    /\ getNumRows flat = getNumRows t
    /\ getNumColumns flat = getNumColumns t
    /\ _indData flat = _indData t
    /\ _depData flat = _depData t
    /\ getColumnLabels flat = getColumnLabels t.
Proof. exists t. repeat split; reflexivity. Qed.

(** C3, the claim as stated fails: [table_scalar] has one row, one column
    and the label "a"; the labels of the table [flatten()] returns are not
    the source labels suffixed with "_1". *)
Lemma flatten_scalar_labels_not_suffixed :
  0 < getNumRows table_scalar
  /\ 0 < getNumColumns table_scalar
  /\ getColumnLabels table_scalar = Ok ["a"]
  /\ ~ (exists flat,
          flatten table_scalar = Ok flat
          /\ getColumnLabels flat = Ok ["a_1"]).
Proof.
  split; [vm_compute; reflexivity|]. split; [vm_compute; reflexivity|].
  split; [vm_compute; reflexivity|].
  intros (flat & Hflat & Hlabels).
  assert (flat = table_scalar) as ->.
  { unfold flatten, DataTable_from, ConstructibleFrom_double in Hflat.
    congruence. }
  vm_compute in Hlabels. discriminate Hlabels.
Qed.

(** ** Metadata of the flattened table *)

(** The cast of a pointer never throws: the handler that removes the key is
    not run. *)
Lemma dynamic_cast_StringArray_no_bad_cast (a : ValueArray) :
  dynamic_cast_StringArray a <> bad_cast.
Proof. destruct a; discriminate. Qed.

(** C4 (the code departs from the claim): [tableVec3_column_index] is a
    table of [Vec3] with labels "a" and "b", one row, and the array of
    unsigned values [1, 2] under the key "column-index".  The arguments are
    accepted, yet flattening does not return a table without that key: the
    cast of the array gives a null pointer, which is dereferenced.  With the
    array of strings ["m", "s"] under "units" flattening returns a table,
    where "units" holds each entry three times, in order. *)
Theorem flatten_unsigned_metadata :
  checkArguments tableVec3_column_index [] = Ok tt
  /\ _dependentsMetaData tableVec3_column_index !! "column-index"
     = Some (UnsignedArray [1; 2])
  /\ flatten tableVec3_column_index = Failure NullPointerDereference
  /\ flatten_with tableVec3_column_index ["_x"; "_y"; "_z"]
     = Failure NullPointerDereference
  /\ (exists flat,
        flatten tableVec3_units = Ok flat
        /\ _dependentsMetaData flat !! "units"
           = Some (StringArray ["m"; "m"; "m"; "s"; "s"; "s"])).
Proof.
  split; [vm_compute; reflexivity|]. split; [vm_compute; reflexivity|].
  split; [vm_compute; reflexivity|]. split; [vm_compute; reflexivity|].
  eexists. split; vm_compute; reflexivity.
Qed.

(** A step of the loop over the keys that returns. *)
Lemma replicateMetaData_Ok {ThatETY : Type}
    `{!Element ThatETY, !Composite ThatETY}
    (that : DataTable_ double ThatETY) key
    (this this' : DataTable_ double double) :
  replicateMetaData that key this = (Ok tt, this') ->
  (key = "labels" /\ this' = this)
  \/ (key <> "labels"
      /\ exists values,
           _dependentsMetaData this !! key = Some (StringArray values)
           /\ this' = set_dependentsMetaData (fun md =>
                <[key := StringArray
                           (flat_map (fun value =>
                              replicate (numComponentsPerElement that) value)
                              values)]> md) this).
Proof.
  unfold replicateMetaData. case_bool_decide as Hkey.
  { unfold retA. intros Heq. left. by simplify_eq. }
  intros H. right. split; [done|].
  apply bindA_Ok in H as (a & s & Hget & H).
  apply readA_eq in Hget as [Hget ->].
  unfold getValueArrayForKey in Hget.
  destruct (_dependentsMetaData this !! key) as [a'|] eqn:Hl;
    [|discriminate Hget].
  injection Hget as ->.
  destruct a as [values| | |]; cbn [dynamic_cast_StringArray] in H;
    [|discriminate H..].
  apply writeA_eq in H as [_ ->]. by exists values.
Qed.

Section MetaDataLoop.
Context {ThatETY : Type} `{!Element ThatETY, !Composite ThatETY}.
Implicit Types (that : DataTable_ double ThatETY)
  (this : DataTable_ double double) (keys : list string).

(** What the loop over the keys leaves behind when it returns: the entries
    of the keys it visited, "labels" apart, hold every string as many times
    as an element has components; nothing else has changed. *)
Lemma forA_replicateMetaData_Ok that keys this this' :
  NoDup keys ->
  forA keys (replicateMetaData that) this = (Ok tt, this') ->
  _tableMetaData this' = _tableMetaData this
  /\ _independentMetaData this' = _independentMetaData this
  /\ _indData this' = _indData this
  /\ _depData this' = _depData this
  /\ (forall key, key ∉ keys \/ key = "labels" ->
        _dependentsMetaData this' !! key = _dependentsMetaData this !! key)
  /\ (forall key, key ∈ keys -> key <> "labels" ->
        exists values,
          _dependentsMetaData this !! key = Some (StringArray values)
          /\ _dependentsMetaData this' !! key
             = Some (StringArray
                       (flat_map (fun value =>
                          replicate (numComponentsPerElement that) value)
                          values))).
Proof.
  intros Hnodup. revert this.
  induction keys as [|k keys IH]; intros this; simpl.
  { unfold retA. intros Heq. simplify_eq. repeat split; try done.
    intros key Hin. by apply elem_of_nil in Hin. }
  apply NoDup_cons in Hnodup as [Hk Hnodup].
  intros H. apply bindA_Ok in H as ([] & s & Hstep & Hrest).
  destruct (IH Hnodup _ Hrest) as (Ht & Hi & Hind & Hdep & Hout & Hin).
  apply replicateMetaData_Ok in Hstep
    as [[-> ->]|(Hne & values & Hl & ->)].
  - repeat split; try done.
    + intros key [Hkey|Hkey]; apply Hout; [|by right].
      left. intros Hc. apply Hkey. by right.
    + intros key Hkey Hne. apply elem_of_cons in Hkey as [->|Hkey]; [done|].
      by apply Hin.
  - repeat split; try done.
    + intros key Hkey.
      assert (key <> k) as Hneq.
      { destruct Hkey as [Hkey| ->]; [|done].
        intros ->. apply Hkey. by left. }
      rewrite Hout.
      * fields. by rewrite lookup_insert_ne.
      * destruct Hkey as [Hkey|Hkey]; [|by right].
        left. intros Hc. apply Hkey. by right.
    + intros key Hkey Hnl. apply elem_of_cons in Hkey as [->|Hkey].
      * exists values. split; [done|].
        rewrite Hout by (by left). fields. by rewrite lookup_insert_eq.
      * destruct (Hin key Hkey Hnl) as (values' & Hl' & Hres).
        assert (key <> k) as Hneq by (by intros ->).
        exists values'. split; [|done].
        revert Hl'. fields. by rewrite lookup_insert_ne.
Qed.


(** The loop dereferences a null pointer when a key it visits, "labels"
    apart, holds an array that is not an array of strings. *)
Lemma forA_replicateMetaData_nonstring that keys this key a :
  NoDup keys ->
  (forall k, k ∈ keys -> is_Some (_dependentsMetaData this !! k)) ->
  key ∈ keys -> key <> "labels" ->
  _dependentsMetaData this !! key = Some a ->
  (forall values, a <> StringArray values) ->
  exists this',
    forA keys (replicateMetaData that) this
    = (Failure NullPointerDereference, this').
Proof.
  intros Hnodup. revert this.
  induction keys as [|k keys IH]; intros this Hsome Hin Hne Ha Hns;
    [by apply elem_of_nil in Hin|].
  apply NoDup_cons in Hnodup as [Hk Hnodup]. simpl.
  unfold bindA, replicateMetaData at 1.
  destruct (decide (k = key)) as [->|Hneq].
  - rewrite bool_decide_eq_false_2 by done.
    unfold bindA, readA, getValueArrayForKey. rewrite Ha.
    destruct a as [values| | |]; [by destruct (Hns values)|by eexists..].
  - apply elem_of_cons in Hin as [->|Hin]; [done|].
    case_bool_decide as Hkey.
    + unfold retA. apply IH; try done.
      intros k' Hk'. apply Hsome. by right.
    + destruct (Hsome k) as [ak Hak]; [by left|].
      unfold bindA, readA, getValueArrayForKey. rewrite Hak.
      destruct ak as [values| | |]; [|by eexists..].
      cbn [dynamic_cast_StringArray writeA]. apply IH; try done.
      * intros k' Hk'. fields. rewrite lookup_insert_is_Some.
        right. split; [by intros ->|]. apply Hsome. by right.
      * fields. by rewrite lookup_insert_ne.
Qed.

Lemma forA_appendSplitRow_dependentsMetaData that rows this res this' :
  forA rows (appendSplitRow that) this = (res, this') ->
  _dependentsMetaData this' = _dependentsMetaData this.
Proof.
  intros H.
  refine (forA_preserves
            (fun s : DataTable_ double double =>
               _dependentsMetaData s = _dependentsMetaData this)
            (appendSplitRow that) _ _ _ _ _ _ H); [|reflexivity].
  intros r s res' s' Hs Hb.
  by rewrite (appendSplitRow_dependentsMetaData _ _ _ _ _ Hb).
Qed.

(** Metadata that holds strings is replicated: in the table the
    constructor returns, every key of the source other than "labels" whose
    array holds strings holds each entry as many times as an element has
    components, in order. *)
Lemma flatten_ctor_string_metadata that suffixes this key values :
  flatten_ctor that suffixes = Ok this ->
  key <> "labels" ->
  _dependentsMetaData that !! key = Some (StringArray values) ->
  _dependentsMetaData this !! key
  = Some (StringArray
            (flat_map (fun value =>
               replicate (numComponentsPerElement that) value) values)).
Proof.
  intros Hflat Hne Hl.
  apply flatten_ctor_Ok in Hflat
    as (this1 & thatLabels & this2 & _ & Hloop & _ & Hset & Hrows).
  apply forA_replicateMetaData_Ok in Hloop
    as (_ & _ & _ & _ & _ & Hin); [|apply NoDup_fst_map_to_list].
  destruct (Hin key) as (values' & Hl' & Hres); [|done|].
  { apply elem_of_getKeys. cbn [_dependentsMetaData]. by eexists. }
  cbn [_dependentsMetaData] in Hl'. rewrite Hl in Hl'. injection Hl' as <-.
  rewrite (forA_appendSplitRow_dependentsMetaData _ _ _ _ _ Hrows).
  apply setColumnLabels_Ok in Hset as [-> _]. fields.
  rewrite lookup_insert_ne by done. by rewrite lookup_delete_ne.
Qed.

(** Metadata that does not hold strings stops the constructor: when the
    arguments are accepted and a key of the source other than "labels" holds
    an array that is not an array of strings, the constructor dereferences
    a null pointer. *)
Lemma flatten_ctor_nonstring_metadata that suffixes key a :
  checkArguments that suffixes = Ok tt ->
  key <> "labels" ->
  _dependentsMetaData that !! key = Some a ->
  (forall values, a <> StringArray values) ->
  flatten_ctor that suffixes = Failure NullPointerDereference.
Proof.
  intros Hc Hne Ha Hns.
  unfold flatten_ctor, construct, splitColumns, bindA at 1, readA at 1.
  rewrite Hc. unfold bindA at 1, readA at 1.
  cbn [_dependentsMetaData].
  destruct (forA_replicateMetaData_nonstring that
              (getKeys (_dependentsMetaData that))
              (mkDataTable (_tableMetaData that) (_independentMetaData that)
                 (_dependentsMetaData that) [] Matrix_empty) key a)
    as [this' Hloop];
    [apply NoDup_fst_map_to_list| |apply elem_of_getKeys; by eexists
    |exact Hne|exact Ha|exact Hns|].
  { intros k Hk. by apply elem_of_getKeys. }
  unfold bindA at 1. rewrite Hloop. reflexivity.
Qed.
End MetaDataLoop.

(** ** Appends that succeed *)

Section AppendRowOk.
Context {ETX ETY : Type} `{!Element ETY}.
Implicit Types (t : DataTable_ ETX ETY) (indRow : ETX) (depRow : list ETY).
Variable validateRow : DataTable_ ETX ETY -> Z -> ETX -> list ETY -> Result unit.

(** The first append into a table that has labels: the width of the row is
    the number of labels. *)
Lemma appendRow_first_with_labels t indRow depRow labels :
  validateRow t (size_of (_indData t)) indRow depRow = Ok tt ->
  (nrow (_depData t) = 0 \/ ncol (_depData t) = 0)%nat ->
  _dependentsMetaData t !! "labels" = Some labels ->
  cast_unsigned (size_of depRow) = ValueArray_size labels ->
  appendRow validateRow indRow depRow t
  = (Ok tt,
     set_depData (fun _ => mkMatrix [depRow] (length depRow))
       (set_indData (fun ind => ind ++ [indRow]) t)).
Proof.
  intros Hv Hempty Hl Hw.
  unfold appendRow, bindA, readA, writeA, catch_KeyNotFound. rewrite Hv.
  fields.
  assert (bool_decide (nrow (_depData t) = 0%nat)
          || bool_decide (ncol (_depData t) = 0%nat) = true) as ->.
  { destruct Hempty as [->| ->]; rewrite ?bool_decide_eq_true_2 by done;
      by rewrite ?orb_true_r. }
  fields. unfold getValueArrayForKey. rewrite Hl. cbn [bindR throw_if].
  rewrite bool_decide_eq_false_2 by (intros Hne; exact (Hne Hw)).
  cbn [throw_if].
  unfold assignLastRow, Matrix_assignRow, Matrix_resize, nrow. fields.
  cbn [elts ncol replicate length].
  rewrite !bool_decide_eq_true_2 by (done || lia).
  reflexivity.
Qed.

(** An append into a table that has rows and columns: the row is added
    below the rows of the table, which are kept as they are. *)
Lemma appendRow_later t indRow depRow :
  validateRow t (size_of (_indData t)) indRow depRow = Ok tt ->
  nrow (_depData t) <> 0%nat ->
  ncol (_depData t) <> 0%nat ->
  rectangular (_depData t) ->
  length depRow = ncol (_depData t) ->
  appendRow validateRow indRow depRow t
  = (Ok tt,
     set_depData (fun m => mkMatrix (elts m ++ [depRow]) (ncol m))
       (set_indData (fun ind => ind ++ [indRow]) t)).
Proof.
  intros Hv Hr Hc Hrect Hw.
  unfold appendRow, bindA, readA, writeA. rewrite Hv. fields.
  rewrite !bool_decide_eq_false_2 by done. cbn [orb].
  unfold assignLastRow. fields.
  assert (Matrix_resizeKeep (_depData t) (nrow (_depData t) + 1)
            (ncol (_depData t))
          = mkMatrix (elts (_depData t)
                      ++ [replicate (ncol (_depData t)) uninit])
              (ncol (_depData t))) as ->.
  { unfold Matrix_resizeKeep, nrow. f_equal.
    assert (resize (ncol (_depData t)) uninit <$> elts (_depData t)
            = elts (_depData t)) as ->.
    { unfold rectangular in Hrect.
      induction Hrect as [|r rs Hlen _ IH]; [done|]. cbn [fmap list_fmap].
      f_equal; [|exact IH]. rewrite <- Hlen. apply resize_all. }
    rewrite resize_ge by lia.
    by replace (length (elts (_depData t)) + 1
                - length (elts (_depData t)))%nat with 1%nat by lia. }
  unfold Matrix_assignRow, nrow.
  cbn [elts ncol]. rewrite length_app. cbn [length].
  rewrite !bool_decide_eq_true_2 by lia.
  unfold set_depData, set_indData. cbn.
  replace (Z.to_nat (Z.of_nat (length (elts (_depData t)) + 1) - 1))
    with (length (elts (_depData t)) + 0)%nat by lia.
  rewrite insert_app_r. reflexivity.
Qed.
End AppendRowOk.


(** ** The width of a flattened row *)

Lemma fold_left_push_length {A B} (f : A -> B) (l : list A) (row : list B) :
  length (fold_left (fun row i => row ++ [f i]) l row)
  = (length row + length l)%nat.
Proof.
  revert row; induction l as [|a l IH]; intros row; simpl.
  - lia.
  - rewrite IH, length_app; simpl; lia.
Qed.

Lemma fold_left_grow_length {A B} (g : list B -> A -> list B) (n : nat)
    (l : list A) (row : list B) :
  (forall row a, length (g row a) = (length row + n)%nat) ->
  length (fold_left g l row) = (length row + length l * n)%nat.
Proof.
  intros Hg. revert row; induction l as [|a l IH]; intros row; simpl.
  - lia.
  - rewrite IH, Hg; lia.
Qed.

#[export] Instance CompositeLength_Vec (N : nat)
  : CompositeLength (vec double N).
Proof.
  intros row elem.
  unfold splitElementAndPushBack, Composite_Vec, split_Vec.
  rewrite (fold_left_push_length
             (fun i => nth i (vec_to_list elem) PrimFloat.nan)).
  by rewrite length_seq.
Qed.

#[export] Instance CompositeLength_VecVec (M N : nat)
  : CompositeLength (vec (vec double N) M).
Proof.
  intros row elem.
  unfold splitElementAndPushBack, Composite_VecVec, split_VecVec.
  rewrite (fold_left_grow_length _ N).
  - by rewrite length_seq.
  - intros r i.
    rewrite (fold_left_push_length
               (fun j => nth j (vec_to_list
                                  (nth i (vec_to_list elem)
                                     (vreplicate N PrimFloat.nan)))
                           PrimFloat.nan)).
    by rewrite length_seq.
Qed.


Lemma getRowAtIndex_Ok {ETX ETY : Type} `{!Element ETY}
    (t : DataTable_ ETX ETY) (i : nat) row :
  Z.of_nat (nrow (_depData t)) < 2 ^ 31 ->
  (i < length (_indData t))%nat ->
  elts (_depData t) !! i = Some row ->
  getRowAtIndex t (Z.of_nat i) = Ok row.
Proof.
  intros Hint Hi Hrow. pose proof (lookup_lt_Some _ _ _ Hrow) as Hlt.
  unfold nrow in Hint.
  unfold getRowAtIndex, isRowIndexOutOfRange, size_of.
  rewrite bool_decide_eq_false_2 by lia. cbn [throw_if bindR].
  rewrite cast_int_small by lia. unfold Matrix_row, nrow.
  rewrite bool_decide_eq_true_2 by lia. by rewrite Nat2Z.id, Hrow.
Qed.

Section FlattenTotal.
Context {ThatETY : Type}
  `{!Element ThatETY, !Composite ThatETY, !CompositeLength ThatETY}.
Implicit Types (that : DataTable_ double ThatETY)
  (this : DataTable_ double double) (suffixes : list string).



End FlattenTotal.

(** ** The flattening constructor returns *)

Section FlattenReturns.
Context {ThatETY : Type}
  `{!Element ThatETY, !Composite ThatETY, !CompositeLength ThatETY}.
Implicit Types (that : DataTable_ double ThatETY)
  (this : DataTable_ double double) (suffixes : list string).

End FlattenReturns.

(** ** The labels of a table that satisfies the preconditions *)




(** * Further properties of the table engine *)

(** ** What a successful append leaves behind *)

Section AppendRowState.
Context {ETX ETY : Type} `{!Element ETY}.
Implicit Types (t : DataTable_ ETX ETY) (indRow : ETX) (depRow : list ETY).
Variable validateRow : DataTable_ ETX ETY -> Z -> ETX -> list ETY -> Result unit.

Lemma appendRow_Ok_accepted t indRow depRow t' :
  appendRow validateRow indRow depRow t = (Ok tt, t') ->
  validateRow t (size_of (_indData t)) indRow depRow = Ok tt.
Proof.
  unfold appendRow, bindA at 1, readA at 1.
  destruct (validateRow t _ indRow depRow) as [[]|e|f]; [done|..];
    intros H; by simplify_eq.
Qed.

Lemma appendRow_first_Ok t indRow depRow t' :
  (nrow (_depData t) = 0 \/ ncol (_depData t) = 0)%nat ->
  appendRow validateRow indRow depRow t = (Ok tt, t') ->
  t' = set_depData (fun _ => mkMatrix [depRow] (length depRow))
         (set_indData (fun ind => ind ++ [indRow]) t).
Proof.
  intros Hempty H. pose proof (appendRow_Ok_accepted _ _ _ _ H) as Hv.
  destruct (_dependentsMetaData t !! "labels") as [labels|] eqn:Hl.
  - destruct (decide (cast_unsigned (size_of depRow) = ValueArray_size labels))
      as [Hw|Hw].
    + rewrite (appendRow_first_with_labels _ _ _ _ labels) in H by done.
      by simplify_eq.
    + rewrite (appendRow_first_wrong_width _ _ _ _ labels) in H by done.
      by simplify_eq.
  - revert H.
    unfold appendRow, bindA, readA, writeA, catch_KeyNotFound. rewrite Hv.
    fields.
    assert (bool_decide (nrow (_depData t) = 0%nat)
            || bool_decide (ncol (_depData t) = 0%nat) = true) as ->.
    { destruct Hempty as [->| ->]; rewrite ?bool_decide_eq_true_2 by done;
        by rewrite ?orb_true_r. }
    fields. unfold getValueArrayForKey. rewrite Hl. cbn [bindR].
    unfold assignLastRow, Matrix_assignRow, Matrix_resize, nrow. fields.
    cbn [elts ncol replicate length].
    rewrite !bool_decide_eq_true_2 by (done || lia).
    intros Heq. by simplify_eq.
Qed.

Lemma appendRow_later_Ok_width t indRow depRow t' :
  nrow (_depData t) <> 0%nat -> ncol (_depData t) <> 0%nat ->
  appendRow validateRow indRow depRow t = (Ok tt, t') ->
  length depRow = ncol (_depData t).
Proof.
  intros Hr Hc H. pose proof (appendRow_Ok_accepted _ _ _ _ H) as Hv.
  revert H. unfold appendRow, bindA, readA, writeA. rewrite Hv. fields.
  rewrite !bool_decide_eq_false_2 by done. cbn [orb].
  unfold assignLastRow, Matrix_assignRow. fields.
  case_bool_decide as Hi; [|intros Heq; by simplify_eq].
  case_bool_decide as Hw; [|intros Heq; by simplify_eq].
  intros _. exact Hw.
Qed.

Lemma appendRow_consistent_Ok t indRow depRow t' :
  consistent t -> depRow <> [] ->
  appendRow validateRow indRow depRow t = (Ok tt, t') ->
  t' = set_depData (fun m =>
         mkMatrix (elts m ++ [depRow]) (length depRow))
         (set_indData (fun ind => ind ++ [indRow]) t)
  /\ (nrow (_depData t) <> 0%nat -> length depRow = ncol (_depData t)).
Proof.
  intros (Hlen & Hrect & Hcols) Hne H.
  destruct (decide (nrow (_depData t) = 0%nat)) as [H0|H0].
  - apply appendRow_first_Ok in H; [|by left]. split; [|done].
    rewrite H. unfold set_depData. cbn. unfold nrow in H0.
    apply length_zero_iff_nil in H0. by rewrite H0.
  - pose proof (appendRow_later_Ok_width _ _ _ _ H0 (Hcols H0) H) as Hw.
    rewrite appendRow_later in H
      by (done || by apply (appendRow_Ok_accepted _ _ _ _ H) || by apply Hcols).
    split; [|done]. simplify_eq. unfold set_depData. cbn. by rewrite Hw.
Qed.
End AppendRowState.


Lemma appendRow_metaData {ETX ETY : Type} `{!Element ETY}
    (validateRow : DataTable_ ETX ETY -> Z -> ETX -> list ETY -> Result unit)
    indRow depRow (t : DataTable_ ETX ETY) r t' :
  appendRow validateRow indRow depRow t = (r, t') ->
  _tableMetaData t' = _tableMetaData t
  /\ _independentMetaData t' = _independentMetaData t.
Proof.
  unfold appendRow, bindA, readA, writeA, catch_KeyNotFound, assignLastRow.
  intros H.
  repeat (case_match; simplify_eq/=); split; reflexivity.
Qed.

Lemma consistent_default {ETX ETY : Type} :
  consistent (DataTable_default : DataTable_ ETX ETY).
Proof. repeat split; [constructor|done]. Qed.

(** Consistency of a table that is given by its rows. *)
Ltac consistent_table :=
  split;
  [reflexivity
  |split;
   [by repeat constructor
   |first [by intros _|intros Hrows; exfalso; by apply Hrows]]].

(** X1: a successful append of a row that is not empty to a consistent
    table adds the independent value at the end of the independent column
    and the row below the rows of the matrix, which stay as they were: the
    row count grows by one, the width of the row is the column count, a
    table that had rows keeps its column count, and the table is consistent
    again. *)
Theorem appendRow_grows_table {ETX ETY : Type} `{!Element ETY}
    (validateRow : DataTable_ ETX ETY -> Z -> ETX -> list ETY -> Result unit)
    (t t' : DataTable_ ETX ETY) (indRow : ETX) (depRow : list ETY) :
  consistent t ->
  depRow <> [] ->
  appendRow validateRow indRow depRow t = (Ok tt, t') ->
  consistent t'
  /\ getNumRows t' = getNumRows t + 1
  /\ _indData t' = _indData t ++ [indRow]
  /\ elts (_depData t') = elts (_depData t) ++ [depRow]
  /\ getNumColumns t' = size_of depRow
  /\ (getNumRows t <> 0 -> getNumColumns t' = getNumColumns t).
Proof.
  intros Hcons Hne H.
  destruct (appendRow_consistent_Ok _ _ _ _ _ Hcons Hne H) as [-> Hw].
  destruct Hcons as (Hlen & Hrect & Hcols).
  unfold getNumRows, implementGetNumRows, getNumColumns,
    implementGetNumColumns, nrow in *.
  unfold consistent. fields. unfold nrow. cbn [elts ncol].
  split; [split; [|split]|split; [|split; [|split; [|split]]]].
  - rewrite !length_app. cbn [length]. lia.
  - unfold rectangular. cbn [elts ncol]. apply Forall_app. split.
    + destruct (decide (length (elts (_depData t)) = 0%nat)) as [H0|H0].
      * apply length_zero_iff_nil in H0. rewrite H0. constructor.
      * rewrite (Hw H0). exact Hrect.
    + by repeat constructor.
  - intros _. destruct depRow; [done|]. cbn [length]. lia.
  - rewrite length_app. cbn [length]. lia.
  - reflexivity.
  - reflexivity.
  - reflexivity.
  - intros H0. rewrite Hw by lia. done.
Qed.

Lemma appendRow_grows_table_witness :
  getNumRows (exec (append 0.5%float [3%float; 4%float]) table_1x2) = 2
  /\ _indData (exec (append 0.5%float [3%float; 4%float]) table_1x2)
     = [0.25%float; 0.5%float]
  /\ elts (_depData (exec (append 0.5%float [3%float; 4%float]) table_1x2))
     = [[1%float; 2%float]; [3%float; 4%float]].
Proof.
  destruct (appendRow_grows_table validateRow_base table_1x2
              (exec (append 0.5%float [3%float; 4%float]) table_1x2)
              0.5%float [3%float; 4%float])
    as (_ & Hrows & Hind & Helts & _).
  - consistent_table.
  - discriminate.
  - reflexivity.
  - split; [exact Hrows|split; [exact Hind|exact Helts]].
Defined.



(** X3: in a table whose matrix has no row or no column and that has
    labels, an append of a row whose width is not the number of labels
    throws [IncorrectNumColumns] with the number of labels as the expected
    and the width of the row as the actual count; the matrix, and so the row
    and the column count, and the metadata are left as they were, and the
    independent value is in the independent column. *)
Theorem appendRow_first_width_mismatch {ETX ETY : Type} `{!Element ETY}
    (validateRow : DataTable_ ETX ETY -> Z -> ETX -> list ETY -> Result unit)
    (t : DataTable_ ETX ETY) (indRow : ETX) (depRow : list ETY)
    (labels : ValueArray) :
  validateRow t (size_of (_indData t)) indRow depRow = Ok tt ->
  (nrow (_depData t) = 0 \/ ncol (_depData t) = 0)%nat ->
  _dependentsMetaData t !! "labels" = Some labels ->
  size_of depRow < 2 ^ 32 ->
  size_of depRow <> ValueArray_size labels ->
  (appendRow validateRow indRow depRow t).1
  = Throw (IncorrectNumColumns (ValueArray_size labels) (size_of depRow))
  /\ _depData (exec (appendRow validateRow indRow depRow) t) = _depData t
  /\ getNumRows (exec (appendRow validateRow indRow depRow) t) = getNumRows t
  /\ getNumColumns (exec (appendRow validateRow indRow depRow) t)
     = getNumColumns t
  /\ _dependentsMetaData (exec (appendRow validateRow indRow depRow) t)
     = _dependentsMetaData t
  /\ _indData (exec (appendRow validateRow indRow depRow) t)
     = _indData t ++ [indRow].
Proof.
  intros Hv Hempty Hl Hsize Hw.
  assert (0 <= size_of depRow) as Hpos by (unfold size_of; lia).
  unfold exec.
  rewrite (appendRow_first_wrong_width _ _ _ _ labels)
    by (done || (rewrite cast_unsigned_small by lia; done)).
  rewrite cast_size_t_small by lia.
  repeat split.
Qed.

Lemma appendRow_first_width_mismatch_witness :
  (append 0.5%float [1%float] table_ab).1
  = Throw (IncorrectNumColumns 2 1)
  /\ getNumRows (exec (append 0.5%float [1%float]) table_ab) = 0.
Proof.
  destruct (appendRow_first_width_mismatch validateRow_base table_ab
              0.5%float [1%float] (StringArray ["a"; "b"]))
    as (Hres & _ & Hrows & _).
  - reflexivity.
  - left. reflexivity.
  - vm_compute. reflexivity.
  - vm_compute. reflexivity.
  - vm_compute. discriminate.
  - split; [exact Hres|exact Hrows].
Defined.

(** X4: an append never changes the table metadata, the metadata of the
    independent column or the metadata of the dependent columns, whether it
    returns or not; and when [validateRow] rejects the row, the rejection is
    what the append throws and the table is left as it was. *)
Theorem appendRow_keeps_metadata {ETX ETY : Type} `{!Element ETY}
    (validateRow : DataTable_ ETX ETY -> Z -> ETX -> list ETY -> Result unit)
    (t : DataTable_ ETX ETY) (indRow : ETX) (depRow : list ETY) :
  (_tableMetaData (exec (appendRow validateRow indRow depRow) t)
   = _tableMetaData t
   /\ _independentMetaData (exec (appendRow validateRow indRow depRow) t)
      = _independentMetaData t
   /\ _dependentsMetaData (exec (appendRow validateRow indRow depRow) t)
      = _dependentsMetaData t)
  /\ forall e,
       validateRow t (size_of (_indData t)) indRow depRow = Throw e ->
       appendRow validateRow indRow depRow t = (Throw e, t).
Proof.
  unfold exec.
  destruct (appendRow validateRow indRow depRow t) as [r t'] eqn:H.
  destruct (appendRow_metaData _ _ _ _ _ _ H) as [Ht Hi].
  pose proof (appendRow_dependentsMetaData _ _ _ _ _ _ H) as Hd.
  split; [done|]. intros e He. rewrite <- H. by apply appendRow_rejected.
Qed.

Lemma appendRow_keeps_metadata_witness :
  appendRow (fun _ _ _ _ => Throw InvalidRow) 0.75%float [5; 6]%float
    table_2x2
  = (Throw InvalidRow, table_2x2).
Proof.
  apply (appendRow_keeps_metadata (fun _ _ _ _ => Throw InvalidRow)
           table_2x2 0.75%float [5; 6]%float).
  reflexivity.
Defined.

(** X5: in a table that has a row and a column, an append never throws
    [IncorrectNumColumns] of its own, whatever the width of the row: the
    width is compared with the number of labels only while the matrix has
    no row or no column. *)
Theorem appendRow_compares_width_only_once {ETX ETY : Type} `{!Element ETY}
    (validateRow : DataTable_ ETX ETY -> Z -> ETX -> list ETY -> Result unit)
    (t : DataTable_ ETX ETY) (indRow : ETX) (depRow : list ETY)
    (expected actual : Z) :
  (forall e a, validateRow t (size_of (_indData t)) indRow depRow
               <> Throw (IncorrectNumColumns e a)) ->
  getNumRows t <> 0 ->
  getNumColumns t <> 0 ->
  (appendRow validateRow indRow depRow t).1
  <> Throw (IncorrectNumColumns expected actual).
Proof.
  intros Hv Hr Hc.
  unfold getNumRows, implementGetNumRows, getNumColumns,
    implementGetNumColumns in *.
  apply appendRow_later_no_width_check; [done|lia|lia].
Qed.

Lemma appendRow_compares_width_only_once_witness :
  (append 0.5%float [1%float; 2%float; 3%float] table_1x2).1
  <> Throw (IncorrectNumColumns 2 3).
Proof.
  apply (appendRow_compares_width_only_once validateRow_base table_1x2
           0.5%float [1%float; 2%float; 3%float] 2 3).
  - intros e a. discriminate.
  - discriminate.
  - discriminate.
Defined.

(** ** Rows and columns by index *)

Section RowsAndColumns.
Context {ETX ETY : Type} `{!Element ETY}.
Implicit Types (t : DataTable_ ETX ETY).

Lemma getRowAtIndex_in_range t index row :
  Z.of_nat (nrow (_depData t)) < 2 ^ 31 ->
  0 <= index < size_of (_indData t) ->
  elts (_depData t) !! Z.to_nat index = Some row ->
  getRowAtIndex t index = Ok row.
Proof.
  intros Hint Hi Hrow. unfold size_of in Hi.
  rewrite <- (Z2Nat.id index) by lia.
  apply getRowAtIndex_Ok; [done|lia|done].
Qed.

Lemma getRowAtIndex_out_of_range t index :
  0 < size_of (_indData t) < 2 ^ 32 ->
  size_of (_indData t) <= index ->
  getRowAtIndex t index
  = Throw (RowIndexOutOfRange index 0 (size_of (_indData t) - 1)).
Proof.
  intros Hn Hi.
  unfold getRowAtIndex, isRowIndexOutOfRange.
  rewrite bool_decide_eq_true_2 by lia. cbn [throw_if bindR].
  rewrite cast_size_t_small, cast_unsigned_small by lia. done.
Qed.
End RowsAndColumns.

(** X6: in a table with one independent value per row, [getRowAtIndex]
    returns row [index] of the matrix for every index below the row count,
    and for every index from the row count on it throws
    [RowIndexOutOfRange] with that index and the bounds 0 and row count
    minus 1.  The row count is an [int], the index a [size_t]; the table has
    a row. *)
Theorem getRowAtIndex_spec {ETX ETY : Type} `{!Element ETY}
    (t : DataTable_ ETX ETY) (index : Z) :
  length (_indData t) = nrow (_depData t) ->
  0 < getNumRows t < 2 ^ 31 ->
  0 <= index < 2 ^ 64 ->
  (index < getNumRows t ->
   exists row,
     elts (_depData t) !! Z.to_nat index = Some row
     /\ getRowAtIndex t index = Ok row)
  /\ (getNumRows t <= index ->
      getRowAtIndex t index
      = Throw (RowIndexOutOfRange index 0 (getNumRows t - 1))).
Proof.
  intros Hlen Hrows Hindex.
  unfold getNumRows, implementGetNumRows in *. split.
  - intros Hlt.
    destruct (lookup_lt_is_Some_2 (elts (_depData t)) (Z.to_nat index))
      as [row Hrow]; [unfold nrow in *; lia|].
    exists row. split; [done|].
    apply getRowAtIndex_in_range; [lia| |done].
    unfold size_of. lia.
  - intros Hge. rewrite <- Hlen.
    apply getRowAtIndex_out_of_range; unfold size_of; lia.
Qed.

Lemma getRowAtIndex_spec_witness :
  (exists row, elts (_depData table_2x2) !! Z.to_nat 1 = Some row
               /\ getRowAtIndex table_2x2 1 = Ok row)
  /\ getRowAtIndex table_2x2 2 = Throw (RowIndexOutOfRange 2 0 1).
Proof.
  split.
  - apply (getRowAtIndex_spec table_2x2 1); vm_compute; try reflexivity;
      split; (reflexivity || discriminate).
  - apply (getRowAtIndex_spec table_2x2 2); vm_compute; try reflexivity;
      try (split; (reflexivity || discriminate)); discriminate.
Defined.

(** X7: in a table with rows of the width of the matrix,
    [getDependentColumnAtIndex] returns, for every index below the column
    count, a column with one entry for each row, and entry [i] of column
    [index] is entry [index] of row [i]; for every index from the column
    count on it throws [ColumnIndexOutOfRange] with that index and the
    bounds 0 and column count minus 1.  The column count is an [int], the
    index a [size_t]; the table has a column. *)
Theorem getDependentColumnAtIndex_spec {ETX ETY : Type} `{!Element ETY}
    (t : DataTable_ ETX ETY) (index : Z) :
  rectangular (_depData t) ->
  0 < getNumColumns t < 2 ^ 31 ->
  0 <= index < 2 ^ 64 ->
  (index < getNumColumns t ->
   exists col,
     getDependentColumnAtIndex t index = Ok col
     /\ size_of col = getNumRows t
     /\ forall (i : nat) row,
          elts (_depData t) !! i = Some row ->
          col !! i = row !! Z.to_nat index /\ is_Some (col !! i))
  /\ (getNumColumns t <= index ->
      getDependentColumnAtIndex t index
      = Throw (ColumnIndexOutOfRange index 0 (getNumColumns t - 1))).
Proof.
  intros Hrect Hcols Hindex.
  unfold getNumColumns, implementGetNumColumns, getNumRows,
    implementGetNumRows in *.
  unfold getDependentColumnAtIndex, isColumnIndexOutOfRange.
  rewrite (cast_size_t_small (Z.of_nat _)) by lia. split.
  - intros Hlt. rewrite bool_decide_eq_false_2 by lia.
    cbn [throw_if bindR]. rewrite cast_int_small by lia.
    unfold Matrix_col. rewrite bool_decide_eq_true_2 by lia.
    eexists. split; [reflexivity|]. split.
    + unfold size_of, nrow. by rewrite length_fmap.
    + intros i row Hrow. rewrite list_lookup_fmap, Hrow. cbn.
      unfold rectangular in Hrect. rewrite Forall_forall in Hrect.
      assert (length row = ncol (_depData t)) as Hlen
        by (apply Hrect; by eapply list_elem_of_lookup_2).
      destruct (lookup_lt_is_Some_2 row (Z.to_nat index)) as [x Hx]; [lia|].
      rewrite Hx. split; [|by eexists]. f_equal.
      by apply nth_lookup_Some with (d := uninit) in Hx.
  - intros Hge. rewrite bool_decide_eq_true_2 by lia.
    cbn [throw_if bindR]. rewrite cast_size_t_small by lia. done.
Qed.

Lemma getDependentColumnAtIndex_spec_witness :
  (exists col, getDependentColumnAtIndex table_2x2 1 = Ok col
               /\ size_of col = 2)
  /\ getDependentColumnAtIndex table_2x2 2
     = Throw (ColumnIndexOutOfRange 2 0 1).
Proof.
  assert (rectangular (_depData table_2x2)) as Hrect
    by (by repeat constructor).
  split.
  - destruct (getDependentColumnAtIndex_spec table_2x2 1 Hrect)
      as [Hin _].
    + vm_compute. split; reflexivity.
    + vm_compute. split; [discriminate|reflexivity].
    + destruct Hin as (col & Hcol & Hsize & _); [reflexivity|].
      exists col. split; [exact Hcol|exact Hsize].
  - destruct (getDependentColumnAtIndex_spec table_2x2 2 Hrect)
      as [_ Hout].
    + vm_compute. split; reflexivity.
    + vm_compute. split; [discriminate|reflexivity].
    + apply Hout. vm_compute. discriminate.
Defined.

(** ** Rows after an append *)

Section StdFind.
Context {A : Type} (eqb : A -> A -> bool).
Implicit Types (l : list A) (v x : A).

(** The search over a range extended by one element. *)
Lemma std_find_app l x v :
  std_find eqb (l ++ [x]) v
  = if bool_decide (std_find eqb l v = length l)
    then (length l + (if eqb x v then 0 else 1))%nat
    else std_find eqb l v.
Proof.
  induction l as [|y l IH]; simpl.
  - by destruct (eqb x v).
  - destruct (eqb y v); [done|]. rewrite IH.
    repeat case_bool_decide; lia.
Qed.

(** Where the search stops there is the first element that equals the
    value. *)
Lemma std_find_found l v :
  std_find eqb l v <> length l ->
  exists x,
    l !! std_find eqb l v = Some x
    /\ eqb x v = true
    /\ forall (j : nat) y,
         (j < std_find eqb l v)%nat -> l !! j = Some y -> eqb y v = false.
Proof.
  induction l as [|y l IH]; simpl; [done|].
  destruct (eqb y v) eqn:Hy.
  - intros _. exists y. repeat split; [done|]. intros j z Hj. lia.
  - intros Hne. destruct IH as (x & Hx & Hxv & Hbefore); [lia|].
    exists x. repeat split; [done..|].
    intros [|j] z Hj Hz; simpl in Hz; [by simplify_eq|].
    apply (Hbefore j); [lia|done].
Qed.
End StdFind.

Lemma getRow_Ok_lookup {ETX ETY : Type} `{!Element ETY}
    (ETX_eqb : ETX -> ETX -> bool) (t : DataTable_ ETX ETY) v row :
  size_of (_indData t) < 2 ^ 31 ->
  getRow ETX_eqb t v = Ok row <->
  std_find ETX_eqb (_indData t) v <> length (_indData t)
  /\ elts (_depData t) !! std_find ETX_eqb (_indData t) v = Some row.
Proof.
  intros Hint. unfold size_of in Hint.
  pose proof (std_find_le ETX_eqb (_indData t) v) as Hle.
  unfold getRow. case_bool_decide as Hend; cbn [throw_if bindR].
  { split; [done|]. by intros [? _]. }
  rewrite cast_int_small by lia. unfold Matrix_row.
  rewrite Nat2Z.id. case_bool_decide as Hin.
  - destruct (elts (_depData t) !! _) as [r|] eqn:Hr;
      split; try done; try (intros Heq; by simplify_eq);
      intros [_ Heq]; by simplify_eq.
  - split; [done|]. intros [_ Hrow].
    apply lookup_lt_Some in Hrow. unfold nrow in Hin. lia.
Qed.

(** X8: when [getRow] returns a row, the independent column has an entry
    that equals the value given, no entry before it does, and the row
    returned is the row of the matrix at the position of that entry.  The
    number of independent values is an [int]. *)
Theorem getRow_returns_first_match {ETX ETY : Type} `{!Element ETY}
    (ETX_eqb : ETX -> ETX -> bool) (t : DataTable_ ETX ETY) (v : ETX)
    (row : list ETY) :
  size_of (_indData t) < 2 ^ 31 ->
  getRow ETX_eqb t v = Ok row ->
  exists (i : nat) x,
    _indData t !! i = Some x
    /\ ETX_eqb x v = true
    /\ (forall (j : nat) y,
          (j < i)%nat -> _indData t !! j = Some y -> ETX_eqb y v = false)
    /\ elts (_depData t) !! i = Some row.
Proof.
  intros Hint Hrow. apply getRow_Ok_lookup in Hrow as [Hne Hrow]; [|done].
  destruct (std_find_found ETX_eqb _ _ Hne) as (x & Hx & Hxv & Hbefore).
  by exists (std_find ETX_eqb (_indData t) v), x.
Qed.

Lemma getRow_returns_first_match_witness :
  exists (i : nat) x,
    _indData table_twice !! i = Some x
    /\ double_eqb x 0.5%float = true
    /\ (forall (j : nat) y,
          (j < i)%nat -> _indData table_twice !! j = Some y ->
          double_eqb y 0.5%float = false)
    /\ elts (_depData table_twice) !! i = Some [1%float].
Proof.
  apply (getRow_returns_first_match double_eqb table_twice 0.5%float
           [1%float]).
  - vm_compute. reflexivity.
  - vm_compute. reflexivity.
Defined.

(** X9: after a successful append of a row that is not empty to a
    consistent table, [getRowAtIndex] returns the appended row at the index
    that was the row count, and returns at every smaller index what it
    returned before the append.  The new row count is an [int]. *)
Theorem getRowAtIndex_after_appendRow {ETX ETY : Type} `{!Element ETY}
    (validateRow : DataTable_ ETX ETY -> Z -> ETX -> list ETY -> Result unit)
    (t t' : DataTable_ ETX ETY) (indRow : ETX) (depRow : list ETY) :
  consistent t ->
  depRow <> [] ->
  getNumRows t + 1 < 2 ^ 31 ->
  appendRow validateRow indRow depRow t = (Ok tt, t') ->
  getRowAtIndex t' (getNumRows t) = Ok depRow
  /\ forall index, 0 <= index < getNumRows t ->
                   getRowAtIndex t' index = getRowAtIndex t index.
Proof.
  intros Hcons Hne Hint H.
  destruct (appendRow_consistent_Ok _ _ _ _ _ Hcons Hne H) as [-> _].
  destruct Hcons as (Hlen & _ & _).
  unfold getNumRows, implementGetNumRows in *. split.
  - apply getRowAtIndex_in_range.
    + fields. unfold nrow in *. cbn [elts]. rewrite length_app.
      cbn [length]. lia.
    + fields. unfold size_of. rewrite length_app. cbn [length]. lia.
    + fields. cbn [elts]. rewrite Nat2Z.id. unfold nrow.
      by rewrite lookup_app_r, Nat.sub_diag by lia.
  - intros index Hindex.
    destruct (lookup_lt_is_Some_2 (elts (_depData t)) (Z.to_nat index))
      as [row Hrow]; [unfold nrow in *; lia|].
    rewrite (getRowAtIndex_in_range t index row);
      [|lia|unfold size_of; lia|done].
    apply getRowAtIndex_in_range.
    + fields. unfold nrow in *. cbn [elts]. rewrite length_app.
      cbn [length]. lia.
    + fields. unfold size_of. rewrite length_app. cbn [length]. lia.
    + fields. cbn [elts]. by rewrite lookup_app_l_Some with (x := row).
Qed.

Lemma getRowAtIndex_after_appendRow_witness :
  getRowAtIndex (exec (append 0.5%float [3%float; 4%float]) table_1x2) 1
  = Ok [3%float; 4%float].
Proof.
  apply (getRowAtIndex_after_appendRow validateRow_base table_1x2
           (exec (append 0.5%float [3%float; 4%float]) table_1x2)
           0.5%float [3%float; 4%float]).
  - consistent_table.
  - discriminate.
  - vm_compute. reflexivity.
  - reflexivity.
Defined.

(** X10: after a successful append of a row that is not empty to a
    consistent table, [getRow] returns for every value the row it returned
    before the append; for a value it did not find before, it returns the
    appended row when the appended independent value equals the value, and
    still throws [KeyNotFound] when it does not.  The new row count is an
    [int]. *)
Theorem getRow_after_appendRow {ETX ETY : Type} `{!Element ETY}
    (ETX_eqb : ETX -> ETX -> bool)
    (validateRow : DataTable_ ETX ETY -> Z -> ETX -> list ETY -> Result unit)
    (t t' : DataTable_ ETX ETY) (indRow : ETX) (depRow : list ETY) :
  consistent t ->
  depRow <> [] ->
  getNumRows t + 1 < 2 ^ 31 ->
  appendRow validateRow indRow depRow t = (Ok tt, t') ->
  (forall v row, getRow ETX_eqb t v = Ok row -> getRow ETX_eqb t' v = Ok row)
  /\ (forall v, getRow ETX_eqb t v = Throw KeyNotFound ->
                ETX_eqb indRow v = true ->
                getRow ETX_eqb t' v = Ok depRow)
  /\ (forall v, getRow ETX_eqb t v = Throw KeyNotFound ->
                ETX_eqb indRow v = false ->
                getRow ETX_eqb t' v = Throw KeyNotFound).
Proof.
  intros Hcons Hne Hint H.
  destruct (appendRow_consistent_Ok _ _ _ _ _ Hcons Hne H) as [-> _].
  destruct Hcons as (Hlen & _ & _).
  unfold getNumRows, implementGetNumRows in *.
  assert (size_of (_indData t) < 2 ^ 31) as Hsize
    by (unfold size_of; lia).
  assert (size_of (_indData t ++ [indRow]) < 2 ^ 31) as Hsize'
    by (unfold size_of; rewrite length_app; cbn [length]; lia).
  repeat split.
  - intros v row Hrow. apply getRow_Ok_lookup in Hrow as [Hfound Hrow];
      [|done].
    apply getRow_Ok_lookup; fields; [done|].
    rewrite std_find_app, bool_decide_eq_false_2 by done.
    pose proof (std_find_le ETX_eqb (_indData t) v).
    split; [rewrite length_app; cbn [length]; lia|].
    cbn [elts]. by rewrite lookup_app_l_Some with (x := row).
  - intros v Hmiss Heq. apply getRow_not_found, std_find_end in Hmiss.
    apply getRow_Ok_lookup; fields; [done|].
    rewrite std_find_app, bool_decide_eq_true_2, Heq by done.
    split; [rewrite length_app; cbn [length]; lia|].
    cbn [elts]. rewrite Nat.add_0_r, Hlen. unfold nrow.
    by rewrite lookup_app_r, Nat.sub_diag by lia.
  - intros v Hmiss Hneq. apply getRow_not_found.
    apply getRow_not_found in Hmiss. fields.
    apply Forall_app. split; [done|]. by repeat constructor.
Qed.

Lemma getRow_after_appendRow_witness :
  getRow double_eqb (exec (append 0.5%float [3%float; 4%float]) table_1x2)
    0.5%float
  = Ok [3%float; 4%float].
Proof.
  destruct (getRow_after_appendRow double_eqb validateRow_base table_1x2
              (exec (append 0.5%float [3%float; 4%float]) table_1x2)
              0.5%float [3%float; 4%float]) as (_ & Hnew & _).
  - consistent_table.
  - discriminate.
  - vm_compute. reflexivity.
  - reflexivity.
  - apply Hnew; vm_compute; reflexivity.
Defined.

(** ** Setting an independent value *)

Section SetIndependentValue.
Context {ETX ETY : Type} `{!Element ETY}.
Implicit Types (t : DataTable_ ETX ETY) (value : ETX).
Variable validateRow : DataTable_ ETX ETY -> Z -> ETX -> list ETY -> Result unit.

Lemma setIndependentValueAtIndex_cases t rowIndex value :
  setIndependentValueAtIndex validateRow rowIndex value t
  = (Ok tt, set_indData (fun ind => <[Z.to_nat rowIndex := value]> ind) t)
  \/ exists r, r <> Ok tt
               /\ setIndependentValueAtIndex validateRow rowIndex value t
                  = (r, t).
Proof.
  unfold setIndependentValueAtIndex, bindA, readA, writeA, throw_if.
  destruct (isRowIndexOutOfRange t rowIndex);
    [right; eexists; split; [|reflexivity]; discriminate|].
  destruct (Matrix_row (_depData t) (cast_int rowIndex)) as [row|e|f];
    cbn [bindR];
    [|right; eexists; split; [|reflexivity]; discriminate..].
  destruct (validateRow t rowIndex value row) as [[]|e|f];
    [by left|right; eexists; split; [|reflexivity]; discriminate..].
Qed.
End SetIndependentValue.

(** X11: [setIndependentValueAtIndex] changes the table only when it
    returns: whenever it fails, by [RowIndexOutOfRange], by a rejection of
    [validateRow] or otherwise, the table is left as it was, in every table.
    An index from the number [n] of independent values on is rejected with
    [RowIndexOutOfRange], that index and the bounds 0 and
    [(unsigned)(n - 1)]: the upper bound is [n - 1] when [n] is between 1
    and [2^32], and 4294967295 in a table without independent values, where
    every index (a [size_t]) is rejected. *)
Theorem setIndependentValueAtIndex_failure {ETX ETY : Type} `{!Element ETY}
    (validateRow : DataTable_ ETX ETY -> Z -> ETX -> list ETY -> Result unit)
    (t : DataTable_ ETX ETY) (rowIndex : Z) (value : ETX) :
  ((setIndependentValueAtIndex validateRow rowIndex value t).1 <> Ok tt ->
   exec (setIndependentValueAtIndex validateRow rowIndex value) t = t)
  /\ (size_of (_indData t) <= rowIndex ->
      setIndependentValueAtIndex validateRow rowIndex value t
      = (Throw (RowIndexOutOfRange rowIndex 0
                  (cast_unsigned (size_of (_indData t) - 1))),
         t))
  /\ (0 < size_of (_indData t) <= 2 ^ 32 ->
      size_of (_indData t) <= rowIndex ->
      setIndependentValueAtIndex validateRow rowIndex value t
      = (Throw (RowIndexOutOfRange rowIndex 0 (size_of (_indData t) - 1)),
         t))
  /\ (_indData t = [] ->
      0 <= rowIndex ->
      setIndependentValueAtIndex validateRow rowIndex value t
      = (Throw (RowIndexOutOfRange rowIndex 0 4294967295), t)).
Proof.
  assert (forall n, cast_unsigned (cast_size_t n) = cast_unsigned n) as Hcast.
  { intros n. unfold cast_unsigned, cast_size_t.
    apply Z.mod_mod_divide. exists (2 ^ 32). reflexivity. }
  assert (size_of (_indData t) <= rowIndex ->
          setIndependentValueAtIndex validateRow rowIndex value t
          = (Throw (RowIndexOutOfRange rowIndex 0
                      (cast_unsigned (size_of (_indData t) - 1))),
             t)) as Hout.
  { intros Hge.
    unfold setIndependentValueAtIndex, bindA at 1, readA at 1,
      isRowIndexOutOfRange.
    rewrite bool_decide_eq_true_2 by lia. cbn [throw_if].
    by rewrite Hcast. }
  split; [|split; [exact Hout|split]].
  - intros Hfail. unfold exec.
    destruct (setIndependentValueAtIndex_cases validateRow t rowIndex value)
      as [Hok|(r & _ & Hr)].
    + rewrite Hok in Hfail. by destruct Hfail.
    + by rewrite Hr.
  - intros Hsize Hge. rewrite (Hout Hge).
    by rewrite cast_unsigned_small by lia.
  - intros Hnil Hge. rewrite Hout by (rewrite Hnil; exact Hge).
    rewrite Hnil. reflexivity.
Qed.

Lemma setIndependentValueAtIndex_failure_witness :
  setIndependentValueAtIndex validateRow_base 2 0.75%float table_2x2
  = (Throw (RowIndexOutOfRange 2 0 1), table_2x2)
  /\ setIndependentValueAtIndex validateRow_base 0 0.75%float
       (DataTable_default (ETX := double) (ETY := double))
     = (Throw (RowIndexOutOfRange 0 0 4294967295), DataTable_default).
Proof.
  destruct (setIndependentValueAtIndex_failure validateRow_base table_2x2 2
              0.75%float) as (_ & _ & Hout & _).
  destruct (setIndependentValueAtIndex_failure validateRow_base
              (DataTable_default (ETX := double) (ETY := double)) 0
              0.75%float) as (_ & _ & _ & Hempty).
  split.
  - apply Hout.
    + vm_compute. split; [reflexivity|discriminate].
    + vm_compute. discriminate.
  - apply Hempty; [reflexivity|reflexivity].
Defined.

(** X12: for an index below the row count of a table with one independent
    value per row, when [validateRow] accepts the new value for the row at
    that index, [setIndependentValueAtIndex] returns and replaces the
    independent value at that index and nothing else: the other independent
    values, the matrix and the metadata are as before, and [getRowAtIndex]
    returns at every index what it returned before.  The row count is an
    [int]. *)
Theorem setIndependentValueAtIndex_success {ETX ETY : Type} `{!Element ETY}
    (validateRow : DataTable_ ETX ETY -> Z -> ETX -> list ETY -> Result unit)
    (t : DataTable_ ETX ETY) (rowIndex : Z) (value : ETX) :
  length (_indData t) = nrow (_depData t) ->
  getNumRows t < 2 ^ 31 ->
  0 <= rowIndex < getNumRows t ->
  (forall row, elts (_depData t) !! Z.to_nat rowIndex = Some row ->
               validateRow t rowIndex value row = Ok tt) ->
  exists t',
    setIndependentValueAtIndex validateRow rowIndex value t = (Ok tt, t')
    /\ _indData t' !! Z.to_nat rowIndex = Some value
    /\ (forall i : nat, i <> Z.to_nat rowIndex ->
                        _indData t' !! i = _indData t !! i)
    /\ length (_indData t') = length (_indData t)
    /\ _depData t' = _depData t
    /\ _dependentsMetaData t' = _dependentsMetaData t
    /\ forall index, getRowAtIndex t' index = getRowAtIndex t index.
Proof.
  intros Hlen Hint Hindex Hvalid.
  unfold getNumRows, implementGetNumRows in *.
  destruct (lookup_lt_is_Some_2 (elts (_depData t)) (Z.to_nat rowIndex))
    as [row Hrow]; [unfold nrow in *; lia|].
  eexists. split.
  { unfold setIndependentValueAtIndex, bindA, readA, writeA,
      isRowIndexOutOfRange, size_of.
    rewrite bool_decide_eq_false_2 by lia. cbn [throw_if].
    rewrite cast_int_small by lia. unfold Matrix_row.
    rewrite bool_decide_eq_true_2 by lia. rewrite Hrow. cbn [bindR].
    rewrite (Hvalid row Hrow). reflexivity. }
  fields. repeat split.
  - apply list_lookup_insert_eq. lia.
  - intros i Hi. by apply list_lookup_insert_ne.
  - apply length_insert.
  - intros index. unfold getRowAtIndex, isRowIndexOutOfRange, size_of.
    fields. by rewrite length_insert.
Qed.

Lemma setIndependentValueAtIndex_success_witness :
  exists t',
    setIndependentValueAtIndex validateRow_base 1 0.75%float table_2x2
    = (Ok tt, t')
    /\ _indData t' !! Z.to_nat 1 = Some 0.75%float.
Proof.
  destruct (setIndependentValueAtIndex_success validateRow_base table_2x2 1
              0.75%float) as (t' & Hset & Hvalue & _).
  - vm_compute. reflexivity.
  - vm_compute. reflexivity.
  - vm_compute. split; [discriminate|reflexivity].
  - intros row _. reflexivity.
  - exists t'. split; [exact Hset|exact Hvalue].
Defined.

(** ** Blocks *)

Section BlockProperties.
Context {ETX ETY : Type} `{!Element ETY}.
Implicit Types (t : DataTable_ ETX ETY).

Lemma getMatrixBlock_in_range t rowStart columnStart numRows numColumns :
  length (_indData t) = nrow (_depData t) ->
  getNumRows t < 2 ^ 31 -> getNumColumns t < 2 ^ 31 ->
  0 <= rowStart -> 0 < numRows -> rowStart + numRows <= getNumRows t ->
  0 <= columnStart -> 0 < numColumns ->
  columnStart + numColumns <= getNumColumns t ->
  getMatrixBlock t rowStart columnStart numRows numColumns
  = Ok (mkMatrix
          ((fun row =>
              take (Z.to_nat numColumns) (drop (Z.to_nat columnStart) row))
             <$> take (Z.to_nat numRows)
                   (drop (Z.to_nat rowStart) (elts (_depData t))))
          (Z.to_nat numColumns)).
Proof.
  intros Hlen Hr Hc Hrs Hnr Hre Hcs Hnc Hce.
  unfold getNumRows, implementGetNumRows, getNumColumns,
    implementGetNumColumns in *.
  unfold getMatrixBlock, isRowIndexOutOfRange, isColumnIndexOutOfRange,
    size_of.
  rewrite !(bool_decide_eq_false_2 (_ = 0)) by lia.
  cbn [orb throw_if bindR].
  rewrite !cast_size_t_small by lia.
  rewrite !bool_decide_eq_false_2 by lia. cbn [throw_if bindR].
  rewrite !cast_int_small by lia. unfold Matrix_block.
  rewrite bool_decide_eq_true_2 by lia. reflexivity.
Qed.
End BlockProperties.

(** X13: for a block that is not empty and lies inside the matrix of a table
    with one independent value per row, [getMatrixBlock] returns a matrix
    with [numRows] rows and [numColumns] columns whose entry at row [a] and
    column [b] is the entry of the table at row [rowStart + a] and column
    [columnStart + b].  The row and the column count are [int]s. *)
Theorem getMatrixBlock_entries {ETX ETY : Type} `{!Element ETY}
    (t : DataTable_ ETX ETY) (rowStart columnStart numRows numColumns : Z) :
  length (_indData t) = nrow (_depData t) ->
  getNumRows t < 2 ^ 31 -> getNumColumns t < 2 ^ 31 ->
  0 <= rowStart -> 0 < numRows -> rowStart + numRows <= getNumRows t ->
  0 <= columnStart -> 0 < numColumns ->
  columnStart + numColumns <= getNumColumns t ->
  exists block,
    getMatrixBlock t rowStart columnStart numRows numColumns = Ok block
    /\ Z.of_nat (nrow block) = numRows
    /\ Z.of_nat (ncol block) = numColumns
    /\ forall a b : nat,
         Z.of_nat a < numRows -> Z.of_nat b < numColumns ->
         elts block !! a ≫= (fun row => row !! b)
         = elts (_depData t) !! (Z.to_nat rowStart + a)%nat
             ≫= (fun row => row !! (Z.to_nat columnStart + b)%nat).
Proof.
  intros Hlen Hr Hc Hrs Hnr Hre Hcs Hnc Hce.
  eexists. split; [by apply getMatrixBlock_in_range|].
  unfold getNumRows, implementGetNumRows, nrow in *. cbn [elts ncol].
  split; [|split].
  - rewrite length_fmap, length_take, length_drop. lia.
  - lia.
  - intros a b Ha Hb.
    rewrite list_lookup_fmap, lookup_take_lt, lookup_drop by lia.
    destruct (elts (_depData t) !! (Z.to_nat rowStart + a)%nat) as [row|];
      [|done].
    cbn. by rewrite lookup_take_lt, lookup_drop by lia.
Qed.

Lemma getMatrixBlock_entries_witness :
  exists block,
    getMatrixBlock table_2x2 1 0 1 2 = Ok block
    /\ Z.of_nat (nrow block) = 1
    /\ Z.of_nat (ncol block) = 2
    /\ forall a b : nat,
         Z.of_nat a < 1 -> Z.of_nat b < 2 ->
         elts block !! a ≫= (fun row => row !! b)
         = elts (_depData table_2x2) !! (Z.to_nat 1 + a)%nat
             ≫= (fun row => row !! (Z.to_nat 0 + b)%nat).
Proof.
  assert (forall P : Prop, P -> P) as Hcut by auto.
  apply (Hcut _ (getMatrixBlock_entries table_2x2 1 0 1 2
                   ltac:(vm_compute; reflexivity)
                   ltac:(vm_compute; reflexivity)
                   ltac:(vm_compute; reflexivity)
                   ltac:(vm_compute; discriminate)
                   ltac:(vm_compute; reflexivity)
                   ltac:(vm_compute; discriminate)
                   ltac:(vm_compute; discriminate)
                   ltac:(vm_compute; reflexivity)
                   ltac:(vm_compute; discriminate))).
Defined.

Lemma take_all_rows {A} (rows : list (list A)) (c : nat) :
  Forall (fun row => length row = c) rows ->
  (fun row => take c (drop 0 row)) <$> drop 0 rows = rows.
Proof.
  rewrite drop_0.
  induction 1 as [|row rows' Hrow _ IH]; [done|].
  cbn [fmap list_fmap]. f_equal; [|exact IH].
  rewrite drop_0, <- Hrow. apply firstn_all.
Qed.

(** X14: the block of all the rows and all the columns of a table with
    rows and columns, one independent value per row and rows of the width
    of the matrix, is the matrix of the table. *)
Theorem getMatrixBlock_whole {ETX ETY : Type} `{!Element ETY}
    (t : DataTable_ ETX ETY) :
  length (_indData t) = nrow (_depData t) ->
  rectangular (_depData t) ->
  0 < getNumRows t < 2 ^ 31 -> 0 < getNumColumns t < 2 ^ 31 ->
  getMatrixBlock t 0 0 (getNumRows t) (getNumColumns t) = Ok (_depData t).
Proof.
  intros Hlen Hrect Hr Hc.
  rewrite getMatrixBlock_in_range by lia.
  unfold getNumRows, implementGetNumRows, getNumColumns,
    implementGetNumColumns, nrow.
  rewrite !Nat2Z.id. change (Z.to_nat 0) with 0%nat.
  rewrite firstn_all.
  rewrite (take_all_rows _ _ Hrect). by destruct (_depData t).
Qed.

Lemma getMatrixBlock_whole_witness :
  getMatrixBlock table_2x2 0 0 2 2 = Ok (_depData table_2x2).
Proof.
  apply (getMatrixBlock_whole table_2x2).
  - vm_compute. reflexivity.
  - by repeat constructor.
  - vm_compute. split; reflexivity.
  - vm_compute. split; reflexivity.
Defined.

(** X15: [getMatrixBlock] rejects a block without rows or without columns
    with [InvalidArgument], in every table and whatever the other arguments
    are.  The rows of a block that has rows and columns are compared with
    the number of independent values, not with the rows of the matrix: when
    the block ends after the last independent value, the call throws
    [RowIndexOutOfRange] with the first or the last row of the block as the
    index, and the bounds 0 and [(unsigned)(row count - 1)].  When the rows
    pass and the block ends after the last column, the call throws
    [ColumnIndexOutOfRange] with the first or the last column of the block
    as the index, and the bounds 0 and [(unsigned)(column count - 1)].  The
    arguments are [size_t]s and the end of the block does not wrap around;
    the column count is an [int]. *)
Theorem getMatrixBlock_rejects {ETX ETY : Type} `{!Element ETY}
    (t : DataTable_ ETX ETY) (rowStart columnStart numRows numColumns : Z) :
  (numRows = 0 \/ numColumns = 0 ->
   getMatrixBlock t rowStart columnStart numRows numColumns
   = Throw InvalidArgument)
  /\ (0 <= rowStart -> 0 < numRows -> rowStart + numRows <= 2 ^ 64 ->
      0 < numColumns ->
      size_of (_indData t) < rowStart + numRows ->
      exists index,
        (index = rowStart \/ index = rowStart + numRows - 1)
        /\ size_of (_indData t) <= index
        /\ getMatrixBlock t rowStart columnStart numRows numColumns
           = Throw (RowIndexOutOfRange index 0
                      (cast_unsigned (getNumRows t - 1))))
  /\ (0 <= rowStart -> 0 < numRows -> rowStart + numRows <= 2 ^ 64 ->
      0 <= columnStart -> 0 < numColumns ->
      columnStart + numColumns <= 2 ^ 64 ->
      getNumColumns t < 2 ^ 31 ->
      rowStart + numRows <= size_of (_indData t) ->
      getNumColumns t < columnStart + numColumns ->
      exists index,
        (index = columnStart \/ index = columnStart + numColumns - 1)
        /\ getNumColumns t <= index
        /\ getMatrixBlock t rowStart columnStart numRows numColumns
           = Throw (ColumnIndexOutOfRange index 0
                      (cast_unsigned (getNumColumns t - 1)))).
Proof.
  unfold getNumRows, implementGetNumRows, getNumColumns,
    implementGetNumColumns in *.
  unfold getMatrixBlock, isRowIndexOutOfRange, isColumnIndexOutOfRange,
    size_of.
  split; [|split].
  - intros [-> | ->]; rewrite (bool_decide_eq_true_2 (0 = 0)) by done;
      rewrite ?orb_true_r; reflexivity.
  - intros Hrs Hr0 Hrw Hc0 Hbig.
    rewrite !(bool_decide_eq_false_2 (_ = 0)) by lia.
    cbn [orb throw_if bindR].
    rewrite !cast_size_t_small by lia.
    case_bool_decide as Hstart; cbn [throw_if bindR].
    + exists rowStart. split; [by left|]. split; [lia|done].
    + rewrite bool_decide_eq_true_2 by lia.
      exists (rowStart + numRows - 1). split; [by right|]. split; [lia|done].
  - intros Hrs Hr0 Hrw Hcs Hc0 Hcw Hc Hfit Hbig.
    rewrite !(bool_decide_eq_false_2 (_ = 0)) by lia.
    cbn [orb throw_if bindR].
    rewrite !cast_size_t_small by lia.
    rewrite !(bool_decide_eq_false_2 (_ >= Z.of_nat (length _))) by lia.
    cbn [throw_if bindR].
    case_bool_decide as Hstart; cbn [throw_if bindR].
    + exists columnStart. split; [by left|]. split; [lia|done].
    + rewrite bool_decide_eq_true_2 by lia.
      exists (columnStart + numColumns - 1).
      split; [by right|]. split; [lia|done].
Qed.

Lemma getMatrixBlock_rejects_witness :
  getMatrixBlock table_2x2 0 0 0 2 = Throw InvalidArgument
  /\ getMatrixBlock table_2x2 1 0 2 2 = Throw (RowIndexOutOfRange 2 0 1)
  /\ getMatrixBlock table_2x2 0 1 1 2 = Throw (ColumnIndexOutOfRange 2 0 1).
Proof.
  destruct (getMatrixBlock_rejects table_2x2 0 0 0 2) as (Hzero & _).
  destruct (getMatrixBlock_rejects table_2x2 1 0 2 2) as (_ & Hrow & _).
  destruct (getMatrixBlock_rejects table_2x2 0 1 1 2) as (_ & _ & Hcol).
  split; [|split].
  - apply Hzero. left. reflexivity.
  - specialize (Hrow ltac:(discriminate)
                     ltac:(reflexivity)
                     ltac:(discriminate)
                     ltac:(reflexivity)
                     ltac:(vm_compute; reflexivity)).
    destruct Hrow as (index & [-> | ->] & Hge & Hres).
    + exfalso. vm_compute in Hge. by apply Hge.
    + exact Hres.
  - specialize (Hcol ltac:(discriminate)
                     ltac:(reflexivity)
                     ltac:(discriminate)
                     ltac:(discriminate)
                     ltac:(reflexivity)
                     ltac:(discriminate)
                     ltac:(vm_compute; reflexivity)
                     ltac:(vm_compute; discriminate)
                     ltac:(vm_compute; reflexivity)).
    destruct Hcol as (index & [-> | ->] & Hge & Hres).
    + exfalso. vm_compute in Hge. by apply Hge.
    + exact Hres.
Defined.

(** ** The flattened table *)




(** X17: in the table the flattening constructor returns, every key of the
    source other than "labels" whose array holds strings holds each of them
    as many times as an element has components, in the order of the
    source. *)
Theorem flatten_ctor_replicates_strings {ThatETY : Type}
    `{!Element ThatETY, !Composite ThatETY}
    (that : DataTable_ double ThatETY) (suffixes : list string)
    (this : DataTable_ double double) (key : string)
    (values : list string) :
  flatten_ctor that suffixes = Ok this ->
  key <> "labels" ->
  _dependentsMetaData that !! key = Some (StringArray values) ->
  _dependentsMetaData this !! key
  = Some (StringArray
            (concat ((fun value =>
                        replicate (numComponentsPerElement that) value)
                       <$> values))).
Proof.
  intros Hflat Hne Hl.
  rewrite (flatten_ctor_string_metadata that suffixes this key values)
    by done.
  by rewrite flat_map_concat_map.
Qed.

Lemma flatten_ctor_replicates_strings_witness :
  exists this,
    flatten_ctor tableVec3_units [] = Ok this
    /\ _dependentsMetaData this !! "units"
       = Some (StringArray ["m"; "m"; "m"; "s"; "s"; "s"]).
Proof.
  eexists. split.
  - vm_compute. reflexivity.
  - etransitivity.
    + apply (flatten_ctor_replicates_strings tableVec3_units [] _ "units"
               ["m"; "s"]).
      * vm_compute. reflexivity.
      * discriminate.
      * vm_compute. reflexivity.
    + vm_compute. reflexivity.
Defined.

(** X18: when the arguments are accepted and a key of the source other
    than "labels" holds an array that is not an array of strings, the
    flattening constructor returns no table and throws no exception of the
    table: the pointer cast of the array is null and is dereferenced. *)
Theorem flatten_ctor_stops_at_other_metadata {ThatETY : Type}
    `{!Element ThatETY, !Composite ThatETY}
    (that : DataTable_ double ThatETY) (suffixes : list string)
    (key : string) (a : ValueArray) :
  checkArguments that suffixes = Ok tt ->
  key <> "labels" ->
  _dependentsMetaData that !! key = Some a ->
  (forall values, a <> StringArray values) ->
  flatten_ctor that suffixes = Failure NullPointerDereference.
Proof. apply flatten_ctor_nonstring_metadata. Qed.

Lemma flatten_ctor_stops_at_other_metadata_witness :
  flatten_ctor tableVec3_column_index [] = Failure NullPointerDereference.
Proof.
  apply (flatten_ctor_stops_at_other_metadata tableVec3_column_index []
           "column-index" (UnsignedArray [1; 2])).
  - vm_compute. reflexivity.
  - discriminate.
  - vm_compute. reflexivity.
  - intros values. discriminate.
Defined.

(** ** The components of an element *)

Lemma fold_left_push_nth {A} (l : list A) (d : A) (n s : nat)
    (row : list A) :
  (s + n <= length l)%nat ->
  fold_left (fun row i => row ++ [nth i l d]) (seq s n) row
  = row ++ take n (drop s l).
Proof.
  revert s row. induction n as [|n IH]; intros s row Hn; simpl.
  - by rewrite ?take_0, app_nil_r.
  - rewrite IH by lia. rewrite <- app_assoc. f_equal.
    destruct (lookup_lt_is_Some_2 l s) as [x Hx]; [lia|].
    rewrite (drop_S _ _ _ Hx). cbn [take app]. f_equal.
    by apply nth_lookup_Some.
Qed.

Lemma fold_left_ext {A B} (f g : A -> B -> A) (l : list B) (a : A) :
  (forall a b, f a b = g a b) -> fold_left f l a = fold_left g l a.
Proof.
  intros Hfg. revert a. induction l as [|b l IH]; intros a; simpl; [done|].
  by rewrite Hfg, IH.
Qed.

Lemma split_Vec_app {N} (row : list double) (elem : vec double N) :
  split_Vec row elem = row ++ vec_to_list elem.
Proof.
  unfold split_Vec.
  rewrite fold_left_push_nth by (by rewrite length_vec_to_list).
  rewrite drop_0. f_equal. rewrite <- (length_vec_to_list elem) at 1.
  apply firstn_all.
Qed.

Lemma fold_left_split_nth {A B} (g : A -> list B) (l : list A) (d : A)
    (n s : nat) (row : list B) :
  (s + n <= length l)%nat ->
  fold_left (fun row i => row ++ g (nth i l d)) (seq s n) row
  = row ++ concat (g <$> take n (drop s l)).
Proof.
  revert s row. induction n as [|n IH]; intros s row Hn; simpl.
  - by rewrite ?take_0, app_nil_r.
  - rewrite IH by lia. rewrite <- app_assoc. f_equal.
    destruct (lookup_lt_is_Some_2 l s) as [x Hx]; [lia|].
    rewrite (drop_S _ _ _ Hx). cbn [take fmap list_fmap concat]. f_equal.
    f_equal. by apply nth_lookup_Some.
Qed.

Lemma split_VecVec_app {M N} (row : list double)
    (elem : vec (vec double N) M) :
  split_VecVec row elem
  = row ++ concat (vec_to_list <$> vec_to_list elem).
Proof.
  unfold split_VecVec.
  rewrite (fold_left_ext _
             (fun row i => row ++ vec_to_list
                                    (nth i (vec_to_list elem)
                                       (vreplicate N PrimFloat.nan)))).
  - rewrite (fold_left_split_nth vec_to_list)
      by (by rewrite length_vec_to_list).
    rewrite drop_0. do 3 f_equal.
    rewrite <- (length_vec_to_list elem) at 1. apply firstn_all.
  - intros r i. rewrite fold_left_push_nth by (by rewrite length_vec_to_list).
    rewrite drop_0. f_equal.
    rewrite <- (length_vec_to_list
                  (nth i (vec_to_list elem) (vreplicate N PrimFloat.nan)))
      at 1.
    apply firstn_all.
Qed.

(** X19: the row the flattening constructor builds from a row of a table
    of [Vec<N>] is the concatenation, in column order, of the components 0
    to N-1 of its elements.  The row has the width of the source. *)
Theorem splitRow_Vec_components {N : nat}
    (that : DataTable_ double (vec double N))
    (thatRow : list (vec double N)) :
  size_of thatRow = getNumColumns that ->
  splitRow that thatRow = concat (vec_to_list <$> thatRow).
Proof.
  intros Hw. unfold size_of, getNumColumns, implementGetNumColumns in Hw.
  unfold splitRow, getNumColumns, implementGetNumColumns.
  rewrite Nat2Z.id.
  rewrite (fold_left_ext _
             (fun row c => row ++ vec_to_list (nth c thatRow uninit)))
    by (intros; apply split_Vec_app).
  rewrite (fold_left_split_nth vec_to_list) by lia.
  rewrite drop_0. cbn [app]. do 2 f_equal.
  replace (ncol (_depData that)) with (length thatRow) by lia.
  apply firstn_all.
Qed.

Lemma splitRow_Vec_components_witness :
  splitRow tableVec3 [[# 1; 2; 3]; [# 4; 5; 6]]%float
  = [1; 2; 3; 4; 5; 6]%float.
Proof.
  apply (splitRow_Vec_components tableVec3 [[# 1; 2; 3]; [# 4; 5; 6]]%float).
  vm_compute. reflexivity.
Defined.

(** X20: the row the flattening constructor builds from a row of a table
    of [Vec<M, Vec<N>>] is the concatenation, in column order, of the
    components of its elements, where the components of an element are
    those of its M vectors, one vector after the other.  The row has the
    width of the source. *)
Theorem splitRow_VecVec_components {M N : nat}
    (that : DataTable_ double (vec (vec double N) M))
    (thatRow : list (vec (vec double N) M)) :
  size_of thatRow = getNumColumns that ->
  splitRow that thatRow
  = concat ((fun elem => concat (vec_to_list <$> vec_to_list elem))
              <$> thatRow).
Proof.
  intros Hw. unfold size_of, getNumColumns, implementGetNumColumns in Hw.
  unfold splitRow, getNumColumns, implementGetNumColumns.
  rewrite Nat2Z.id.
  rewrite (fold_left_ext _
             (fun row c =>
                row ++ concat (vec_to_list
                                 <$> vec_to_list (nth c thatRow uninit))))
    by (intros; apply split_VecVec_app).
  rewrite (fold_left_split_nth
             (fun elem => concat (vec_to_list <$> vec_to_list elem)))
    by lia.
  rewrite drop_0. cbn [app]. do 2 f_equal.
  replace (ncol (_depData that)) with (length thatRow) by lia.
  apply firstn_all.
Qed.

Lemma splitRow_VecVec_components_witness :
  splitRow tableSpatialVec [[# [# 1; 2; 3]; [# 4; 5; 6]]]%float
  = [1; 2; 3; 4; 5; 6]%float.
Proof.
  apply (splitRow_VecVec_components tableSpatialVec
           [[# [# 1; 2; 3]; [# 4; 5; 6]]]%float).
  vm_compute. reflexivity.
Defined.

(** ** Tables from a file *)

(** X21: when the file adapter has returned at least one table, the
    constructor from a file either returns a table or throws
    [InvalidArgument], and nothing else.  It returns a table exactly when
    the table selected is a table of the type constructed: the only table
    of the file when no name is given, and the table registered under the
    name when a name is given; the table returned is the table selected. *)
Theorem DataTable_fromFile_spec {ETX ETY AbstractDataTable : Type}
    (dynamic_cast_DataTable :
       AbstractDataTable -> option (DataTable_ ETX ETY))
    (absTables : list (string * AbstractDataTable)) (tablename : string) :
  absTables <> [] ->
  (DataTable_fromFile AbstractDataTable dynamic_cast_DataTable absTables
     tablename = Some (Throw InvalidArgument)
   \/ exists table,
        DataTable_fromFile AbstractDataTable dynamic_cast_DataTable absTables
          tablename = Some (Ok table))
  /\ forall table,
       DataTable_fromFile AbstractDataTable dynamic_cast_DataTable absTables
         tablename = Some (Ok table)
       <-> exists absTable,
             dynamic_cast_DataTable absTable = Some table
             /\ ((tablename = "" /\ exists name, absTables = [(name, absTable)])
                 \/ (tablename <> ""
                     /\ map_at absTables tablename = Some absTable)).
Proof.
  intros Hne. unfold DataTable_fromFile.
  destruct absTables as [|[name first] rest]; [done|]. clear Hne.
  unfold size_of. cbn [length].
  destruct (decide (tablename = "")) as [->|Hname].
  - rewrite (bool_decide_eq_true_2 ("" = "")) by done.
    rewrite andb_true_r. case_bool_decide as Hsize.
    + split; [by left|]. intros table. split; [done|].
      intros (absTable & _ & [[_ (name' & Heq)]|[Hc _]]); [|done].
      injection Heq as _ _ ->. cbn [length] in Hsize. lia.
    + assert (rest = []) as -> by (destruct rest; [done|cbn in Hsize; lia]).
      cbn [bindR].
      destruct (dynamic_cast_DataTable first) as [table|] eqn:Hcast.
      * split; [right; by exists table|]. intros table'. split.
        -- intros [= <-]. exists first. split; [done|]. left.
           split; [done|]. by exists name.
        -- intros (absTable & Hc & [[_ (name' & Heq)]|[Hcontra _]]);
             [|done].
           injection Heq as _ <-. congruence.
      * split; [by left|]. intros table'. split; [done|].
        intros (absTable & Hc & [[_ (name' & Heq)]|[Hcontra _]]); [|done].
        injection Heq as _ <-. congruence.
  - rewrite (bool_decide_eq_false_2 (tablename = "")) by done.
    rewrite andb_false_r.
    destruct (map_at ((name, first) :: rest) tablename) as [absTable|]
      eqn:Hat; cbn [bindR].
    + destruct (dynamic_cast_DataTable absTable) as [table|] eqn:Hcast.
      * split; [right; by exists table|]. intros table'. split.
        -- intros [= <-]. exists absTable. split; [done|]. by right.
        -- intros (absTable' & Hc & [[Hcontra _]|[_ Heq]]); [done|].
           injection Heq as <-. congruence.
      * split; [by left|]. intros table'. split; [done|].
        intros (absTable' & Hc & [[Hcontra _]|[_ Heq]]); [done|].
        injection Heq as <-. congruence.
    + split; [by left|]. intros table'. split; [done|].
      intros (absTable' & Hc & [[Hcontra _]|[_ Heq]]); done.
Qed.

Lemma DataTable_fromFile_spec_witness :
  DataTable_fromFile FileTable FileTable_cast_double file_forces_markers
    "forces" = Some (Ok table_2x2)
  /\ DataTable_fromFile FileTable FileTable_cast_double file_forces_markers
       "" = Some (Throw InvalidArgument).
Proof.
  destruct (DataTable_fromFile_spec FileTable_cast_double
              file_forces_markers "forces") as [_ Hok]; [discriminate|].
  destruct (DataTable_fromFile_spec FileTable_cast_double
              file_forces_markers "") as [Hcases Hnone]; [discriminate|].
  split.
  - apply Hok. exists (FileTable_double table_2x2). split; [reflexivity|].
    right. split; [discriminate|reflexivity].
  - destruct Hcases as [Hthrow|(table & Htable)]; [exact Hthrow|].
    apply Hnone in Htable
      as (absTable & _ & [[_ (name & Heq)]|[Hcontra _]]);
      [discriminate Heq|by destruct Hcontra].
Defined.
